(** * hashblock/exchange: state addressing and the events CLI protocol logic

    A shallow embedding of
      - [modules/address.py]   (class [Address] and its subclasses), and
      - [sawtooth_cli/eventsset.py] (key addressing, candidate listing, voting,
        genesis and batch construction),
    followed by the properties of the specification that concern them.

    Conventions of the embedding.
      - A Python [str] is a [string]; each [ascii] is one code point
        (U+0000..U+00FF), so [len] is [String.length] and [encode] below is
        UTF-8 on those code points.
      - [bytes] is [list byte].
      - An exception is a value of [exn]; a function that may raise returns
        [result].
      - A global name is bound by the imports and definitions of its module;
        reading a name that [eventsset.py] does not bind raises [NameError]
        ([eventsset.global]). *)

From Stdlib Require Import ZArith List String Ascii Bool Lia.
From Stdlib Require Import Strings.Byte DecimalString.
Import ListNotations.
Local Open Scope string_scope.

(* ------------------------------------------------------------------ *)
(** ** Python strings and bytes *)

Definition bytes := list byte.

(** [s[0:n]] for [0 <= n]. *)
Fixpoint slice_to (n : nat) (s : string) : string :=
  match n, s with
  | S n', String c s' => String c (slice_to n' s')
  | _, _ => EmptyString
  end.

(** [str.encode("utf-8")] (also the default of [str.encode()]). *)
Definition utf8_char (c : ascii) : bytes :=
  let n := N_of_ascii c in
  if (n <? 128)%N then [byte_of_ascii c]
  else [byte_of_ascii (ascii_of_N (N.lor 192 (N.shiftr n 6)));
        byte_of_ascii (ascii_of_N (N.lor 128 (N.land n 63)))].

Fixpoint encode (s : string) : bytes :=
  match s with
  | EmptyString => []
  | String c s' => (utf8_char c ++ encode s')%list
  end.

(** [sep.join(parts)] is [String.concat sep parts]. *)

(** [list(s)]: the characters of [s], each a one-character string. *)
Definition chars (s : string) : list string :=
  map (fun c => String c "") (list_ascii_of_string s).

(** [s.split(sep, maxsplit)] for a one-character separator: the string is cut
    at its first [maxsplit] separators, the last part keeps the rest. *)
Fixpoint split (sep : ascii) (maxsplit : nat) (s : string) : list string :=
  match s with
  | EmptyString => [""]
  | String c s' =>
      if Ascii.eqb c sep then
        match maxsplit with
        | O => [s]
        | S m => "" :: split sep m s'
        end
      else
        match split sep maxsplit s' with
        | p :: ps => String c p :: ps
        | [] => [String c ""]
        end
  end.

(** [s.startswith(prefix)] is [String.prefix prefix s]. *)
Definition startswith (s p : string) : bool := String.prefix p s.

(* ------------------------------------------------------------------ *)
(** ** hashlib: SHA-256 and SHA-512 (FIPS 180-4)

    The two digests the repository calls, written once over the parameters
    in which they differ. Words are integers below [2 ^ wbits]; the test
    vectors of the standard are checked further down. *)

Module hashlib.
Local Open Scope Z_scope.

Record state := State { sa : Z; sb : Z; sc : Z; sd : Z;
                        se : Z; sf : Z; sg : Z; sh : Z }.

(** What distinguishes the two functions: word size, round constants,
    initial value, and the rotation and shift amounts. *)
Record variant := Variant {
  wbits : Z;
  wmask : Z;             (* 2 ^ wbits - 1 *)
  Kt : list Z;
  IV : state;
  Sigma0 : Z * Z * Z;
  Sigma1 : Z * Z * Z;
  sigma0 : Z * Z * Z;
  sigma1 : Z * Z * Z
}.

Section Generic.
Variable v : variant.

(** Reduction modulo [2 ^ wbits]. *)
Definition trunc (x : Z) : Z := Z.land x (wmask v).
Definition add (x y : Z) : Z := trunc (x + y).
Definition rotr (n x : Z) : Z :=
  Z.lor (Z.shiftr x n) (trunc (Z.shiftl x (wbits v - n))).
Definition shr (n x : Z) : Z := Z.shiftr x n.

Definition Ch (x y z : Z) : Z :=
  Z.lxor (Z.land x y) (Z.land (trunc (Z.lnot x)) z).
Definition Maj (x y z : Z) : Z :=
  Z.lxor (Z.lxor (Z.land x y) (Z.land x z)) (Z.land y z).

(** The capital sigmas xor three rotations; the small ones two rotations
    and a shift. *)
Definition bigsig (r : Z * Z * Z) (x : Z) : Z :=
  let '(r1, r2, r3) := r in
  Z.lxor (Z.lxor (rotr r1 x) (rotr r2 x)) (rotr r3 x).
Definition smallsig (r : Z * Z * Z) (x : Z) : Z :=
  let '(r1, r2, r3) := r in
  Z.lxor (Z.lxor (rotr r1 x) (rotr r2 x)) (shr r3 x).

Definition round (st : state) (k wt : Z) : state :=
  let t1 := add (add (add (add (sh st) (bigsig (Sigma1 v) (se st)))
                          (Ch (se st) (sf st) (sg st))) k) wt in
  let t2 := add (bigsig (Sigma0 v) (sa st)) (Maj (sa st) (sb st) (sc st)) in
  State (add t1 t2) (sa st) (sb st) (sc st)
        (add (sd st) t1) (se st) (sf st) (sg st).

(** [win] holds the sixteen schedule words W[t] .. W[t+15]. *)
Fixpoint rounds (ks : list Z) (win : list Z) (st : state) : state :=
  match ks with
  | [] => st
  | k :: ks' =>
      let wnext :=
        add (add (add (smallsig (sigma1 v) (nth 14 win 0)) (nth 9 win 0))
                 (smallsig (sigma0 v) (nth 1 win 0))) (nth 0 win 0) in
      rounds ks' (tl win ++ [wnext])%list (round st k (nth 0 win 0))
  end.

Definition compress (h : state) (block : list Z) : state :=
  let r := rounds (Kt v) block h in
  State (add (sa h) (sa r)) (add (sb h) (sb r))
        (add (sc h) (sc r)) (add (sd h) (sd r))
        (add (se h) (se r)) (add (sf h) (sf r))
        (add (sg h) (sg r)) (add (sh h) (sh r)).

Definition word_bytes : nat := Z.to_nat (wbits v / 8).
Definition block_bytes : nat := 16 * word_bytes.

(** Big-endian value of a byte list, and the converse on [n] bytes. *)
Definition be_value (bs : list Z) : Z :=
  fold_left (fun acc b => acc * 256 + b) bs 0.
Definition be_bytes (n : nat) (x : Z) : list Z :=
  map (fun i => Z.shiftr x (8 * Z.of_nat i) mod 256) (rev (seq 0 n)).

Fixpoint words (n : nat) (bs : list Z) : list Z :=
  match n with
  | O => []
  | S n' => be_value (firstn word_bytes bs)
              :: words n' (skipn word_bytes bs)
  end.

Definition pad (msg : list Z) : list Z :=
  let bs := Z.of_nat block_bytes in
  let l := Z.of_nat (List.length msg) in
  let lenb := 2 * Z.of_nat word_bytes in
  let k := (bs - (l + 1 + lenb) mod bs) mod bs in
  (msg ++ [128] ++ repeat 0 (Z.to_nat k)
       ++ be_bytes (Z.to_nat lenb) (8 * l))%list.

Fixpoint blocks (n : nat) (bs : list Z) (h : state) : state :=
  match n with
  | O => h
  | S n' => blocks n' (skipn block_bytes bs)
                   (compress h (words 16 (firstn block_bytes bs)))
  end.

Definition digest (msg : bytes) : state :=
  let p := pad (map (fun b => Z.of_N (Byte.to_N b)) msg) in
  blocks (List.length p / block_bytes) p (IV v).

Definition hexchar (d : Z) : ascii :=
  match String.get (Z.to_nat d) "0123456789abcdef" with
  | Some c => c
  | None => "0"%char
  end.

Fixpoint hexdigits (n : nat) (x : Z) : string :=
  match n with
  | O => ""
  | S n' => String (hexchar (Z.shiftr x (4 * Z.of_nat n') mod 16))
                   (hexdigits n' x)
  end.

Definition hexword (x : Z) : string :=
  hexdigits (Z.to_nat (wbits v / 4)) x.

Definition hexdigest (msg : bytes) : string :=
  let h := digest msg in
  hexword (sa h) ++ hexword (sb h) ++ hexword (sc h) ++ hexword (sd h)
    ++ hexword (se h) ++ hexword (sf h) ++ hexword (sg h) ++ hexword (sh h).
End Generic.

(** The constants of FIPS 180-4: the first [w] bits of the fractional parts
    of the square roots (initial value) and cube roots (round constants) of
    the first primes. *)
Definition is_prime (n : nat) : bool :=
  (1 <? n)%nat
  && forallb (fun d => negb (n mod d =? 0)%nat) (seq 2 (n - 2)).

Definition primes (count : nat) : list Z :=
  map Z.of_nat (firstn count (filter is_prime (seq 2 420))).

(** The greatest [r' >= r], built from the bits below [bits], whose [k]-th
    power does not exceed [n]. *)
Fixpoint root_bits (k : Z) (bits : nat) (n r : Z) : Z :=
  match bits with
  | O => r
  | S b =>
      let r' := r + 2 ^ Z.of_nat b in
      root_bits k b n (if r' ^ k <=? n then r' else r)
  end.

Definition frac_root (k w p : Z) : Z :=
  root_bits k (Z.to_nat w + 4) (Z.shiftl p (k * w)) 0 mod 2 ^ w.

Definition initial_value (w : Z) : state :=
  match map (frac_root 2 w) (primes 8) with
  | [a; b; c; d; e; f; g; h] => State a b c d e f g h
  | _ => State 0 0 0 0 0 0 0 0
  end.

Definition SHA256 : variant :=
  Eval vm_compute in
  {| wbits := 32;
     wmask := 2 ^ 32 - 1;
     Kt := map (frac_root 3 32) (primes 64);
     IV := initial_value 32;
     Sigma0 := (2, 13, 22);
     Sigma1 := (6, 11, 25);
     sigma0 := (7, 18, 3);
     sigma1 := (17, 19, 10) |}.

Definition SHA512 : variant :=
  Eval vm_compute in
  {| wbits := 64;
     wmask := 2 ^ 64 - 1;
     Kt := map (frac_root 3 64) (primes 80);
     IV := initial_value 64;
     Sigma0 := (28, 34, 39);
     Sigma1 := (14, 18, 41);
     sigma0 := (1, 8, 7);
     sigma1 := (19, 61, 6) |}.

(** [hashlib.sha256(b).hexdigest()] and [hashlib.sha512(b).hexdigest()]. *)
Definition sha256_hexdigest (b : bytes) : string := hexdigest SHA256 b.
Definition sha512_hexdigest (b : bytes) : string := hexdigest SHA512 b.
End hashlib.


(* ------------------------------------------------------------------ *)
(** ** Exceptions *)

Inductive exn : Type :=
| AssetIdRange (msg : string)      (* modules.exceptions *)
| CliException (msg : string)      (* sawtooth_cli.exceptions *)
| IndexError (msg : string)
| AssertionError (msg : string)
| DecodeError (msg : string)       (* google.protobuf.message *)
| NameError (msg : string)         (* a name that is bound nowhere *)
| ValueError (msg : string).       (* an unpacking of the wrong length *)

Inductive result (A : Type) : Type :=
| Ok (a : A)
| Raise (e : exn).
Arguments Ok {A} a.
Arguments Raise {A} e.

Definition rbind {A B} (r : result A) (k : A -> result B) : result B :=
  match r with
  | Ok a => k a
  | Raise e => Raise e
  end.

Notation "x <- r ;; k" := (rbind r (fun x => k))
  (at level 61, r at next level, right associativity).

(** [l[i] = x] on a list: raises [IndexError] out of range. *)
Fixpoint setitem {A} (l : list A) (i : nat) (x : A) : result (list A) :=
  match l, i with
  | [], _ => Raise (IndexError "list assignment index out of range")
  | _ :: t, O => Ok (x :: t)
  | h :: t, S i' => t' <- setitem t i' x ;; Ok (h :: t')
  end.

(** [s[i]] on a string: raises [IndexError] out of range. *)
Definition getitem (s : string) (i : nat) : result string :=
  match String.get i s with
  | Some c => Ok (String c "")
  | None => Raise (IndexError "string index out of range")
  end.

(** [str(x)] of an optional string as [format] prints it. *)
Definition str_of (x : option string) : string :=
  match x with
  | Some s => s
  | None => "None"
  end.

(* ------------------------------------------------------------------ *)
(** ** modules/address.py *)

Module Address.

Definition NAMESPACE := "hashblock".
Definition FAMILY_UNIT := "unit".
Definition FAMILY_ASSET := "asset".
Definition FAMILY_MATCH := "match".
Definition FAMILY_SETTING := "setting".
Definition DIMENSION_UNIT := "unit".
Definition DIMENSION_RESOURCE := "resource".
Definition DIMENSION_UTXQ := "utxq".
Definition DIMENSION_MTXQ := "mtxq".
Definition ASSET_CANDIDATES := "candidates".

(** [hashup]: the SHA-512 hex digest of the UTF-8 bytes of [value]. *)
Definition hashup (value : string) : string :=
  hashlib.sha512_hexdigest (encode value).

(** Well known hashes, computed once when the class is defined. *)
Definition _namespace_hash : string :=
  Eval vm_compute in slice_to 6 (hashup NAMESPACE).
Definition _setting_hash : string :=
  Eval vm_compute in slice_to 6 (hashup FAMILY_SETTING).
Definition _match_hash : string :=
  Eval vm_compute in slice_to 6 (hashup FAMILY_MATCH).
Definition _asset_hash : string :=
  Eval vm_compute in slice_to 6 (hashup FAMILY_ASSET).
Definition _candidates_hash : string :=
  Eval vm_compute in slice_to 6 (hashup ASSET_CANDIDATES).
Definition _unit_hash : string :=
  Eval vm_compute in slice_to 6 (hashup DIMENSION_UNIT).
Definition _resource_hash : string :=
  Eval vm_compute in slice_to 6 (hashup DIMENSION_RESOURCE).
Definition _unit_asset_hash := "00".
Definition _resource_asset_hash := "01".
Definition _filler_hash26 : string :=
  Eval vm_compute in slice_to 52 (hashup "filler").
Definition _filler_hash23 : string :=
  Eval vm_compute in slice_to 46 _filler_hash26.

(** An addresser object: the attributes [BaseAddress.__init__] sets. *)
Record BaseAddress := {
  _family : string;
  _versions : list string;
  _family_hash : string;
  _reghash : string
}.

Definition BaseAddress__init (family : string) (version_list : list string)
  : BaseAddress :=
  {| _family := family;
     _versions := version_list;
     _family_hash := slice_to 6 (hashup family);
     _reghash := _namespace_hash ++ slice_to 6 (hashup family) |}.

Section Methods.
Variable self : BaseAddress.

Definition ns_family : string := _namespace_hash ++ _family_hash self.
Definition family_ns_hash : string := _reghash self.
Definition family_hash : string := _family_hash self.

Definition candidates_base : string := ns_family ++ _candidates_hash.

Definition candidates (dimension : string) : string :=
  candidates_base ++ slice_to 6 (hashup dimension) ++ _filler_hash23.

Definition settings (dimension : string) : string :=
  ns_family ++ slice_to 6 (hashup dimension) ++ _filler_hash26.

Definition asset_prefix (dimension : string) : string :=
  let _dim_hash :=
    if (dimension =? DIMENSION_UNIT)%string
    then _unit_asset_hash else _resource_asset_hash in
  ns_family ++ _dim_hash.

Definition asset_item_syskey (dimension system key : string) : string :=
  asset_prefix dimension
    ++ slice_to 6 (hashup system) ++ slice_to 6 (hashup key).

Definition asset_item (dimension system key : string)
           (ident : option string) : result string :=
  match ident with
  | Some id =>
      if negb (String.length id =? 44)%nat then
        Raise (AssetIdRange
                 ("Id != 44 for " ++ dimension ++ " " ++ system ++ " "
                    ++ key ++ " " ++ id))
      else Ok (asset_item_syskey dimension system key ++ id)
  | None =>
      Raise (AssetIdRange
               ("Id != 44 for " ++ dimension ++ " " ++ system ++ " "
                  ++ key ++ " " ++ str_of None))
  end.

Definition txq_dimension (dimension : string) : string :=
  ns_family ++ slice_to 6 (hashup dimension).

Definition txq_list (dimension ops : string) : string :=
  txq_dimension dimension ++ slice_to 6 (hashup ops).

Definition txq_item (dimension ops ident : string) : string :=
  txq_list dimension ops ++ slice_to 46 (hashup ident).

Definition match2_initiate_unmatched (dimension ops ident : string)
  : string :=
  txq_list dimension ops ++ "0" ++ slice_to 45 (hashup ident).

(** The next three methods do not read [self]. *)
Definition set_utxq_matched (address : string) : result string :=
  laddr <- setitem (chars address) 24 "1" ;;
  Ok (String.concat "" laddr).

Definition set_utxq_unmatched (address : string) : result string :=
  laddr <- setitem (chars address) 24 "0" ;;
  Ok (String.concat "" laddr).

Definition is_utxq_matched (address : string) : result bool :=
  c <- getitem address 24 ;; Ok (c =? "1")%string.

(** [UnitAddress.unit_address] and [AssetAddress.asset_address]: the two
    methods have the same body. *)
Definition element_address (system key : string) (ident : option string)
  : result string :=
  match ident with
  | Some id =>
      if negb (String.length id =? 44)%nat then
        Raise (AssetIdRange
                 ("Invalid ident " ++ id ++ " for  " ++ _family self
                    ++ " " ++ system ++ " " ++ key))
      else Ok (family_ns_hash ++ slice_to 8 (hashup system)
                 ++ slice_to 6 (hashup key) ++ id)
  | None =>
      Raise (AssetIdRange
               ("Invalid ident " ++ str_of None ++ " for  " ++ _family self
                  ++ " " ++ system ++ " " ++ key))
  end.
End Methods.

(** The class methods on addresses. *)
Definition is_hex (c : ascii) : bool :=
  let n := N_of_ascii c in
  ((48 <=? n) && (n <=? 57) || (97 <=? n) && (n <=? 102)
   || (65 <=? n) && (n <=? 70))%N.

(** [re.fullmatch(r"^[0-9a-fA-F]+$", address)] as a truth value. *)
Definition fullmatch_hex (address : string) : bool :=
  negb (String.length address =? 0)%nat
  && forallb is_hex (list_ascii_of_string address).

Definition valid_address (address : string) : bool :=
  negb (String.length address =? 0)%nat
  && fullmatch_hex address
  && (String.length address mod 2 =? 0)%nat.

Definition valid_leaf_address (address : string) : bool :=
  valid_address address && (String.length address =? 70)%nat.

Definition leaf_address_type (target address : string) : bool :=
  valid_leaf_address address
  && (target =? slice_to (String.length target) address)%string.

(** [SettingAddress.settings] overrides [Address.settings]. *)
Definition SettingAddress_settings (self : BaseAddress) (stype : string)
  : string :=
  family_ns_hash self ++ slice_to 6 (hashup stype) ++ _filler_hash26.

Definition SettingAddress : BaseAddress :=
  BaseAddress__init "setting" ["0.2.0"].

(** [VotingAddress]: a [BaseAddress] with its setting and candidate
    addresses. *)
Record VotingAddress := {
  voting_base :> BaseAddress;
  _setting_addy : string;
  _candidate_addy : string
}.

Definition VotingAddress__init (family : string) (version_list : list string)
  : VotingAddress :=
  let base := BaseAddress__init family version_list in
  {| voting_base := base;
     _setting_addy := SettingAddress_settings SettingAddress family;
     _candidate_addy :=
       _namespace_hash ++ _candidates_hash ++ family_hash base
         ++ _filler_hash26 |}.

Definition UnitAddress : VotingAddress := VotingAddress__init "unit" ["0.3.0"].
Definition AssetAddress : VotingAddress := VotingAddress__init "asset" ["0.3.0"].

Definition unit_address := element_address UnitAddress.
Definition asset_address := element_address AssetAddress.

(** [MatchAddress]: a [BaseAddress] of family "match" with a dimension. *)
Record MatchAddress := {
  match_base :> BaseAddress;
  _dimension : string;
  _dimension_address : string
}.

Definition MatchAddress__init (dimension : string)
           (version_list : list string) : result MatchAddress :=
  let base := BaseAddress__init "match" version_list in
  c <- getitem (hashup dimension) 6 ;;
  Ok {| match_base := base;
        _dimension := dimension;
        _dimension_address := family_ns_hash base ++ c |}.

Definition MatchUTXQAddress := MatchAddress__init "utxq" ["0.2.0"].
Definition MatchMTXQAddress := MatchAddress__init "mtxq" ["0.2.0"].

(** The factories of [Address]. *)
Definition setting_addresser := SettingAddress.
Definition unit_addresser := UnitAddress.
Definition asset_addresser := AssetAddress.
Definition match_utxq_addresser := MatchUTXQAddress.
Definition match_mtxq_addresser := MatchMTXQAddress.
(** [BaseAddress.family_ns_name] and [Address.namespace]. *)
Definition family_ns_name (self : BaseAddress) : string :=
  NAMESPACE ++ "_" ++ _family self.
Definition namespace (self : BaseAddress) : string :=
  "hashblock_" ++ _family self.

(** [BaseAddress.is_family]. *)
Definition is_family (self : BaseAddress) (address : string) : bool :=
  (family_ns_hash self =? slice_to 6 address)%string.

(** The properties of [VotingAddress] and [MatchAddress]. *)
Definition setting_address (self : VotingAddress) : string :=
  _setting_addy self.
Definition candidate_address (self : VotingAddress) : string :=
  _candidate_addy self.
Definition dimension (self : MatchAddress) : string := _dimension self.
Definition dimension_address (self : MatchAddress) : string :=
  _dimension_address self.
End Address.


(* ------------------------------------------------------------------ *)
(** ** Effects of the command line client

    The client signs, reads the clock, reads and writes files and talks to
    the validator's REST API. A computation of [M A] receives the effects
    performed so far and returns its outcome with the effects extended;
    an exception keeps the effects performed before it was raised. *)

(** The protocol buffer messages of [sawtooth_cli.protobuf]; the wire format
    itself ([SerializeToString], [ParseFromString]) is external.
    The types of all messages are declared here; which of their names
    [eventsset.py] binds is a matter of its imports, see
    [eventsset.module_globals]. *)
Class Message (A : Type) := {
  SerializeToString : A -> bytes;
  ParseFromString : bytes -> result A
}.

Module EventProposal.
Record t := { code : string; value : string; nonce : string }.
End EventProposal.

Module EventVote.
Inductive Vote := ACCEPT | REJECT.
Record t := { proposal_id : string; vote : Vote }.
End EventVote.

Module EventPayload.
Inductive Action := PROPOSE | VOTE.
Record t := { data : bytes; action : Action }.
End EventPayload.

Module VoteRecord.
Record t := { public_key : string; vote : EventVote.Vote }.
End VoteRecord.

Module EventCandidate.
Record t := {
  proposal_id : string;
  proposal : EventProposal.t;
  votes : list VoteRecord.t
}.
End EventCandidate.

Module EventCandidates.
Record t := { candidates : list EventCandidate.t }.
End EventCandidates.

Module Entry.
Record t := { key : string; value : string }.
End Entry.

Module Event.
Record t := { entries : list Entry.t }.
End Event.

Module TransactionHeader.
Record t := {
  signer_public_key : string;
  family_name : string;
  family_version : string;
  inputs : list string;
  outputs : list string;
  dependencies : list string;
  payload_sha512 : string;
  batcher_public_key : string
}.
End TransactionHeader.

Module Transaction.
Record t := {
  header : bytes;
  header_signature : string;
  payload : bytes
}.
End Transaction.

Module BatchHeader.
Record t := {
  signer_public_key : string;
  transaction_ids : list string
}.
End BatchHeader.

Module Batch.
Record t := {
  header : bytes;
  header_signature : string;
  transactions : list Transaction.t
}.
End Batch.

Module BatchList.
Record t := { batches : list Batch.t }.
End BatchList.

(** A signer of [sawtooth_signing]: its public key in hex and its signing
    function. *)
Record Signer := {
  get_public_key_as_hex : string;
  sign : bytes -> string
}.

Inductive effect : Type :=
| ReadKeyFile (key_filename : option string)
| UtcNow
| Sign (message : bytes)
| GetLeaf (url address : string)
| SendBatches (url : string) (batch_list : BatchList.t)
| WriteFile (name : string) (content : bytes)
| Print (line : string).

Definition M (A : Type) : Type := list effect -> result A * list effect.

Definition ret {A} (a : A) : M A := fun tr => (Ok a, tr).
Definition raise {A} (e : exn) : M A := fun tr => (Raise e, tr).
Definition lift {A} (r : result A) : M A := fun tr => (r, tr).
Definition perform {A} (e : effect) (r : result A) : M A :=
  fun tr => (r, (tr ++ [e])%list).
Definition bind {A B} (m : M A) (k : A -> M B) : M B :=
  fun tr =>
    match m tr with
    | (Ok a, tr') => k a tr'
    | (Raise e, tr') => (Raise e, tr')
    end.

Notation "x <~ m ;; k" := (bind m (fun x => k))
  (at level 61, m at next level, right associativity).
Notation "m ;;; k" := (bind m (fun _ => k))
  (at level 61, right associativity).

(** [for x in l: body(x)]. *)
Fixpoint for_each {A} (l : list A) (body : A -> M unit) : M unit :=
  match l with
  | [] => ret tt
  | x :: l' => body x ;;; for_each l' body
  end.

(** [[f(x) for x in l]] where [f] has effects and may raise. *)
Fixpoint comprehension {A B} (l : list A) (f : A -> M B) : M (list B) :=
  match l with
  | [] => ret []
  | x :: l' =>
      y <~ f x ;;
      ys <~ comprehension l' f ;;
      ret (y :: ys)
  end.

(** [[x for x in l if p(x)]] where [p] may raise. *)
Fixpoint comprehension_if {A} (l : list A) (p : A -> result bool)
  : result (list A) :=
  match l with
  | [] => Ok []
  | x :: l' =>
      b <- p x ;;
      r <- comprehension_if l' p ;;
      Ok (if b then x :: r else r)
  end.

(** [l[i]] on a list (a repeated field): raises [IndexError] out of range. *)
Definition list_getitem {A} (l : list A) (i : nat) : result A :=
  match nth_error l i with
  | Some x => Ok x
  | None => Raise (IndexError "list index out of range")
  end.

(** What the process is given: the key files, the clock, the file system and
    the validator's REST API. *)
Record Env := {
  (** [_read_signer]: the signer of a key file, or its [CliException]. *)
  key_files : option string -> result Signer;
  (** [str(datetime.datetime.utcnow().timestamp())], by the number of effects
      performed before. *)
  timestamp : nat -> string;
  (** [open(name, 'wb')] and the write: [Some e] when it raises [IOError]. *)
  write_error : string -> option string;
  (** [RestClient(url).get_leaf(address)]: the leaf's ['data'], if any. *)
  get_leaf : string -> string -> result (option string);
  (** [RestClient(url).send_batches(batch_list)]. *)
  send_batches : string -> BatchList.t -> result unit;
  (** [base64.b64decode]. *)
  b64decode : string -> result bytes
}.

(** [a, b = x] on a sequence of strings: [ValueError] when its length is
    not 2. *)
Definition unpack2 (x : list string) : result (string * string) :=
  match x with
  | [] => Raise (ValueError "not enough values to unpack (expected 2, got 0)")
  | [_] => Raise (ValueError "not enough values to unpack (expected 2, got 1)")
  | [a; b] => Ok (a, b)
  | _ => Raise (ValueError "too many values to unpack (expected 2)")
  end.

(* ------------------------------------------------------------------ *)
(** ** sawtooth_cli/eventsset.py *)

Module eventsset.

Definition UNITS_NAMESPACE : string :=
  Eval vm_compute in slice_to 6 (hashlib.sha512_hexdigest (encode "events")).

Definition _MAX_KEY_PARTS : nat := 4.
Definition _ADDRESS_PART_SIZE : nat := 16.

Definition _short_hash (in_str : string) : string :=
  slice_to _ADDRESS_PART_SIZE (hashlib.sha256_hexdigest (encode in_str)).

Definition _key_to_address (key : string) : string :=
  let key_parts := split "." (_MAX_KEY_PARTS - 1) key in
  let key_parts :=
    (key_parts ++ repeat "" (_MAX_KEY_PARTS - List.length key_parts))%list in
  UNITS_NAMESPACE ++ String.concat "" (map _short_hash key_parts).

Definition event_key_to_address (key : string) : string :=
  _key_to_address key.

Definition _config_inputs (key : string) : list string :=
  [ _key_to_address "hashblock.events.vote.proposals";
    _key_to_address "hashblock.events.vote.authorized_keys";
    _key_to_address "hashblock.events.vote.approval_threshold";
    _key_to_address key ].

Definition _config_outputs (key : string) : list string :=
  [ _key_to_address "hashblock.events.vote.proposals";
    _key_to_address key ].

(** The candidate filter of [_do_event_list]. *)
Definition _accept (candidate : EventCandidate.t)
           (public_key prefix : string) : result bool :=
  has_pub_key <-
    (if (public_key =? "")%string then Ok true
     else v <- list_getitem (EventCandidate.votes candidate) 0 ;;
          Ok (VoteRecord.public_key v =? public_key)%string) ;;
  let has_prefix :=
    startswith (EventProposal.code (EventCandidate.proposal candidate))
               prefix in
  Ok (has_prefix && has_pub_key).

(** The names [eventsset.py] binds at module level: its imports (l.16-49),
    its constants and its functions. A global name is looked up here and
    then among the builtins, none of which is a message class. *)
Definition module_globals : list string :=
  [ "argparse"; "b64decode"; "csv"; "datetime"; "getpass"; "hashlib"; "json";
    "logging"; "os"; "sys"; "traceback"; "yaml"; "pkg_resources";
    "ColoredFormatter"; "CliException"; "RestClient";
    "EventPayload"; "InitiateEvent"; "ReciprocateEvent"; "Quantity"; "Ratio";
    "TransactionHeader"; "Transaction"; "BatchHeader"; "Batch"; "BatchList";
    "create_context"; "CryptoFactory"; "ParseError"; "Secp256k1PrivateKey";
    "DISTRIBUTION_NAME"; "UNITS_NAMESPACE"; "_MIN_PRINT_WIDTH";
    "_MAX_KEY_PARTS"; "_ADDRESS_PART_SIZE";
    "add_config_parser"; "_do_event_initiate"; "_do_event_list";
    "_do_event_reciprocate"; "_do_config_genesis"; "_get_proposals";
    "_read_signer"; "_create_batch"; "_create_propose_txn";
    "_create_vote_txn"; "_make_txn"; "_config_inputs"; "_config_outputs";
    "_short_hash"; "_key_to_address"; "event_key_to_address";
    "create_console_handler"; "setup_loggers"; "create_parent_parser";
    "create_parser"; "main"; "main_wrapper" ].

(** Reading the global [name] in a function body: [value] is what the name
    stands for when it is bound; a name that is not bound raises
    [NameError] at the moment it is read. *)
Definition global {A} (name : string) (value : A) : M A :=
  if existsb (String.eqb name) module_globals then ret value
  else raise (NameError ("name '" ++ name ++ "' is not defined")).

Section Client.
Context (env : Env).
Context {msg_proposal : Message EventProposal.t}
        {msg_vote : Message EventVote.t}
        {msg_payload : Message EventPayload.t}
        {msg_txn_header : Message TransactionHeader.t}
        {msg_batch_header : Message BatchHeader.t}
        {msg_batch_list : Message BatchList.t}
        {msg_event : Message Event.t}
        {msg_candidates : Message EventCandidates.t}.

Definition _read_signer (key_filename : option string) : M Signer :=
  perform (ReadKeyFile key_filename) (key_files env key_filename).

Definition utcnow_timestamp : M string :=
  fun tr => (Ok (timestamp env (List.length tr)), (tr ++ [UtcNow])%list).

Definition signer_sign (signer : Signer) (message : bytes) : M string :=
  perform (Sign message) (Ok (sign signer message)).

Definition _get_proposals (rest_client : string) : M EventCandidates.t :=
  let address := _key_to_address "hashblock.events.vote.proposals" in
  state_leaf <~ perform (GetLeaf rest_client address)
                        (get_leaf env rest_client address) ;;
  config_candidates <~ global "EventCandidates"
                         {| EventCandidates.candidates := [] |} ;;
  match state_leaf with
  | Some leaf_data =>
      event_bytes <~ lift (b64decode env leaf_data) ;;
      event_ParseFromString <~
        global "Event" (ParseFromString (A := Event.t)) ;;
      event <~ lift (event_ParseFromString event_bytes) ;;
      let candidates_bytes :=
        fold_left
          (fun found entry =>
             if (Entry.key entry =? "hashblock.events.vote.proposals")%string
             then Some (Entry.value entry) else found)
          (Event.entries event) None in
      match candidates_bytes with
      | Some cb =>
          decoded <~ lift (b64decode env cb) ;;
          lift (ParseFromString decoded)
      | None => ret config_candidates
      end
  | None => ret config_candidates
  end.

Definition _make_txn (signer : Signer) (event_key : string)
           (payload : EventPayload.t) : M Transaction.t :=
  let serialized_payload := SerializeToString payload in
  let header :=
    SerializeToString
      {| TransactionHeader.signer_public_key := get_public_key_as_hex signer;
         TransactionHeader.family_name := "hashblock_events";
         TransactionHeader.family_version := "0.1.0";
         TransactionHeader.inputs := _config_inputs event_key;
         TransactionHeader.outputs := _config_outputs event_key;
         TransactionHeader.dependencies := [];
         TransactionHeader.payload_sha512 :=
           hashlib.sha512_hexdigest serialized_payload;
         TransactionHeader.batcher_public_key :=
           get_public_key_as_hex signer |} in
  signature <~ signer_sign signer header ;;
  ret {| Transaction.header := header;
         Transaction.header_signature := signature;
         Transaction.payload := serialized_payload |}.

Definition _create_propose_txn (signer : Signer)
           (event_key_value : list string) : M Transaction.t :=
  key_value <~ lift (unpack2 event_key_value) ;;
  let '(event_key, event_value) := key_value in
  nonce <~ utcnow_timestamp ;;
  EventProposal_ <~ global "EventProposal" EventProposal.Build_t ;;
  let proposal := EventProposal_ event_key event_value nonce in
  EventPayload_ <~ global "EventPayload" EventPayload.Build_t ;;
  let payload :=
    EventPayload_ (SerializeToString proposal) EventPayload.PROPOSE in
  _make_txn signer event_key payload.

Definition _create_vote_txn (signer : Signer)
           (proposal_id event_key vote_value : string) : M Transaction.t :=
  vote_id <~ (if (vote_value =? "accept")%string
              then global "EventVote" EventVote.ACCEPT
              else global "EventVote" EventVote.REJECT) ;;
  EventVote_ <~ global "EventVote" EventVote.Build_t ;;
  let vote := EventVote_ proposal_id vote_id in
  EventPayload_ <~ global "EventPayload" EventPayload.Build_t ;;
  let payload := EventPayload_ (SerializeToString vote) EventPayload.VOTE in
  _make_txn signer event_key payload.

Definition _create_batch (signer : Signer)
           (transactions : list Transaction.t) : M Batch.t :=
  let txn_ids := map Transaction.header_signature transactions in
  let batch_header :=
    SerializeToString
      {| BatchHeader.signer_public_key := get_public_key_as_hex signer;
         BatchHeader.transaction_ids := txn_ids |} in
  signature <~ signer_sign signer batch_header ;;
  ret {| Batch.header := batch_header;
         Batch.header_signature := signature;
         Batch.transactions := transactions |}.

(** [_do_event_list] up to its local [candidates]; the printing of the
    list in the chosen format follows it. *)
Record ListArgs := {
  list_url : string;
  list_public_key : string;
  list_filter : string
}.

Definition _do_event_list_candidates (args : ListArgs)
  : M (list EventCandidate.t) :=
  candidates_payload <~ _get_proposals (list_url args) ;;
  lift (comprehension_if
          (EventCandidates.candidates candidates_payload)
          (fun c => _accept c (list_public_key args) (list_filter args))).

Record VoteArgs := {
  vote_key : option string;
  vote_url : string;
  vote_proposal_id : string;
  vote_value : string
}.

Definition _do_event_reciprocate (args : VoteArgs) : M unit :=
  signer <~ _read_signer (vote_key args) ;;
  let rest_client := vote_url args in
  proposals <~ _get_proposals rest_client ;;
  let proposal :=
    find (fun candidate =>
            (EventCandidate.proposal_id candidate
             =? vote_proposal_id args)%string)
         (EventCandidates.candidates proposals) in
  match proposal with
  | None => raise (CliException "No proposal exists with the given id")
  | Some proposal =>
      for_each (EventCandidate.votes proposal)
        (fun vote_record =>
           if (VoteRecord.public_key vote_record
               =? get_public_key_as_hex signer)%string
           then raise (CliException
                  "A vote has already been recorded with this signing key")
           else ret tt) ;;;
      txn <~ _create_vote_txn signer (vote_proposal_id args)
               (EventProposal.code (EventCandidate.proposal proposal))
               (vote_value args) ;;
      batch <~ _create_batch signer [txn] ;;
      let batch_list := {| BatchList.batches := [batch] |} in
      perform (SendBatches rest_client batch_list)
              (send_batches env rest_client batch_list)
  end.

Record GenesisArgs := {
  genesis_key : option string;
  authorized_key : option (list string);
  approval_threshold : option Z;
  output : string
}.

(** The local [authorized_keys] of [_do_config_genesis]: the caller's
    list, or the signer's key alone when there is none, with the signer's
    key appended when it is not in it. *)
Definition genesis_authorized_keys (authorized_key : option (list string))
           (public_key : string) : list string :=
  let authorized_keys :=
    match authorized_key with
    | Some (k :: ks) => k :: ks
    | _ => [public_key]
    end in
  if negb (existsb (String.eqb public_key) authorized_keys)
  then (authorized_keys ++ [public_key])%list
  else authorized_keys.

Definition write_batch_file (name : string) (content : bytes) : M unit :=
  match write_error env name with
  | None => perform (WriteFile name content) (Ok tt) ;;;
            perform (Print ("Generated " ++ name)) (Ok tt)
  | Some e => raise (CliException ("Unable to write to batch file: " ++ e))
  end.

Definition _do_config_genesis (args : GenesisArgs) : M unit :=
  signer <~ _read_signer (genesis_key args) ;;
  let public_key := get_public_key_as_hex signer in
  let authorized_keys :=
    genesis_authorized_keys (authorized_key args) public_key in
  txn1 <~ _create_propose_txn signer
            ["hashblock.events.vote.authorized_keys";
             String.concat "," authorized_keys] ;;
  let txns := [txn1] in
  txns <~ match approval_threshold args with
          | Some threshold =>
              if (threshold <? 1)%Z then
                raise (CliException
                         "approval threshold must not be less than 1")
              else if (threshold >? Z.of_nat (List.length authorized_keys))%Z
              then
                raise (CliException
                         ("approval threshold must not be greater than the number of "
                            ++ "authorized keys"))
              else
                txn2 <~ _create_propose_txn signer
                          ["hashblock.events.vote.approval_threshold";
                           NilZero.string_of_int (Z.to_int threshold)] ;;
                ret (txns ++ [txn2])%list
          | None => ret txns
          end ;;
  batch <~ _create_batch signer txns ;;
  let batch_list := {| BatchList.batches := [batch] |} in
  write_batch_file (output args) (SerializeToString batch_list).

Record InitiateArgs := {
  event : list string;
  initiate_key : option string;
  initiate_output : option string;
  initiate_url : option string
}.

Definition _do_event_initiate (args : InitiateArgs) : M unit :=
  let events := map (split "=" 1) (event args) in
  signer <~ _read_signer (initiate_key args) ;;
  txns <~ comprehension events
            (fun event => _create_propose_txn signer event) ;;
  batch <~ _create_batch signer txns ;;
  let batch_list := {| BatchList.batches := [batch] |} in
  match initiate_output args, initiate_url args with
  | Some out, _ =>
      match write_error env out with
      | None => perform (WriteFile out (SerializeToString batch_list)) (Ok tt)
      | Some e =>
          raise (CliException ("Unable to write to batch file: " ++ e))
      end
  | None, Some url =>
      perform (SendBatches url batch_list)
              (send_batches env url batch_list)
  | None, None => raise (AssertionError "No target for create set.")
  end.
End Client.
End eventsset.

(* ------------------------------------------------------------------ *)
(** ** The specification's wording, where it is compared with the code *)

Module Spec.
(** [hash6]: the first 6 hex characters of the SHA-512 hex digest of the
    UTF-8 bytes of [value]. *)
Definition hash6 (value : string) : string :=
  slice_to 6 (hashlib.sha512_hexdigest (encode value)).

(** [keyToAddress]: the key split on '.' into at most 4 parts, padded with
    empty strings, the namespace hash followed by [hash6] of each part. *)
Definition keyToAddress (dottedKey : string) : string :=
  let parts := split "." 3 dottedKey in
  let parts := (parts ++ repeat "" (4 - List.length parts))%list in
  eventsset.UNITS_NAMESPACE ++ String.concat "" (map hash6 parts).

(** An identifier that is present and exactly 44 hex characters. *)
Definition is_44_hex (ident : option string) : bool :=
  match ident with
  | Some id => (String.length id =? 44)%nat
               && forallb Address.is_hex (list_ascii_of_string id)
  | None => false
  end.

(** The identifier is absent or its length is not 44. *)
Definition ident_rejected (ident : option string) : Prop :=
  ident = None \/ exists id, ident = Some id /\ String.length id <> 44.

(** The string [s] with the character at offset [i] replaced by [c]. *)
Fixpoint replace_at (i : nat) (c : ascii) (s : string) : string :=
  match s, i with
  | EmptyString, _ => EmptyString
  | String _ s', O => String c s'
  | String d s', S i' => String d (replace_at i' c s')
  end.

(** A valid 70-character leaf address of the match family: its first 12
    characters are the namespace and "match" family hashes. *)
Definition match_leaf (address : string) : bool :=
  Address.leaf_address_type
    (Address.family_ns_hash (Address.BaseAddress__init Address.FAMILY_MATCH
                               ["0.2.0"]))
    address.

(** Every character of [s] is a hex digit. *)
Definition all_hex (s : string) : bool :=
  forallb Address.is_hex (list_ascii_of_string s).

(** [c] does not occur in [s]. *)
Definition free_of (c : ascii) (s : string) : Prop :=
  ~ In c (list_ascii_of_string s).
End Spec.

(** The specification's wording of the candidate listing, and the values the
    client's constructors return. *)
Module Listing.



End Listing.

Module Built.
Section Values.
Context {msg_payload : Message EventPayload.t}
        {msg_txn_header : Message TransactionHeader.t}
        {msg_batch_header : Message BatchHeader.t}.

(** The transaction [_make_txn] returns. *)
Definition txn (signer : Signer) (event_key : string)
           (payload : EventPayload.t) : Transaction.t :=
  let serialized_payload := SerializeToString payload in
  let header :=
    SerializeToString
      {| TransactionHeader.signer_public_key := get_public_key_as_hex signer;
         TransactionHeader.family_name := "hashblock_events";
         TransactionHeader.family_version := "0.1.0";
         TransactionHeader.inputs := eventsset._config_inputs event_key;
         TransactionHeader.outputs := eventsset._config_outputs event_key;
         TransactionHeader.dependencies := [];
         TransactionHeader.payload_sha512 :=
           hashlib.sha512_hexdigest serialized_payload;
         TransactionHeader.batcher_public_key :=
           get_public_key_as_hex signer |} in
  {| Transaction.header := header;
     Transaction.header_signature := sign signer header;
     Transaction.payload := serialized_payload |}.

(** The header [_create_batch] serializes, and the batch it returns. *)
Definition batch_header (signer : Signer)
           (transactions : list Transaction.t) : BatchHeader.t :=
  {| BatchHeader.signer_public_key := get_public_key_as_hex signer;
     BatchHeader.transaction_ids :=
       map Transaction.header_signature transactions |}.

Definition batch (signer : Signer) (transactions : list Transaction.t)
  : Batch.t :=
  {| Batch.header := SerializeToString (batch_header signer transactions);
     Batch.header_signature :=
       sign signer (SerializeToString (batch_header signer transactions));
     Batch.transactions := transactions |}.
End Values.
End Built.

(** A small world to run the client in: two candidates as in the
    specification's listing example, a third without votes, and a wire format
    that only the read path looks into. *)
Module Fixture.
Definition K1 := "02a1".
Definition K2 := "03b2".

Definition signer1 : Signer :=
  {| get_public_key_as_hex := K1; sign := fun _ => "5161" |}.

Definition C1 : EventCandidate.t :=
  {| EventCandidate.proposal_id := "p1";
     EventCandidate.proposal :=
       {| EventProposal.code := "a.b"; EventProposal.value := "1";
          EventProposal.nonce := "n1" |};
     EventCandidate.votes :=
       [ {| VoteRecord.public_key := K1;
            VoteRecord.vote := EventVote.ACCEPT |} ] |}.



Definition write_only (A : Type) : Message A :=
  {| SerializeToString := fun _ => [];
     ParseFromString := fun _ => Raise (DecodeError "not parsed") |}.

(** The state blob holds one entry whose value parses to [cands]. *)
Definition event_message : Message Event.t :=
  {| SerializeToString := fun _ => [];
     ParseFromString := fun _ =>
       Ok {| Event.entries :=
               [ {| Entry.key := "hashblock.events.vote.proposals";
                    Entry.value := "blob" |} ] |} |}.

Definition candidates_message (cands : list EventCandidate.t)
  : Message EventCandidates.t :=
  {| SerializeToString := fun _ => [];
     ParseFromString := fun _ => Ok {| EventCandidates.candidates := cands |} |}.

Definition env : Env :=
  {| key_files := fun _ => Ok signer1;
     timestamp := fun _ => "1541030400.0";
     write_error := fun _ => None;
     get_leaf := fun _ _ => Ok (Some "leaf");
     send_batches := fun _ _ => Ok tt;
     b64decode := fun _ => Ok [] |}.
End Fixture.

(** The key under which the pending proposals are stored. *)
Definition proposals_key : string := "hashblock.events.vote.proposals".

(** [s[n:]] for [0 <= n]. *)
Fixpoint slice_from (n : nat) (s : string) : string :=
  match n, s with
  | S n', String _ s' => slice_from n' s'
  | _, _ => s
  end.

Opaque hashlib.digest.

(* ------------------------------------------------------------------ *)
(** ** The digests on the test vectors of FIPS 180-4 *)

Example sha256_abc :
  hashlib.sha256_hexdigest (encode "abc")
  = "ba7816bf8f01cfea414140de5dae2223b00361a396177a9cb410ff61f20015ad".
Proof. vm_compute. reflexivity. Qed.

Example sha256_two_blocks :
  hashlib.sha256_hexdigest
    (encode "abcdbcdecdefdefgefghfghighijhijkijkljklmklmnlmnomnopnopq")
  = "248d6a61d20638b8e5c026930c3e6039a33ce45964ff2167f6ecedd419db06c1".
Proof. vm_compute. reflexivity. Qed.

Example sha512_abc :
  hashlib.sha512_hexdigest (encode "abc")
  = "ddaf35a193617abacc417349ae20413112e6fa4e89a97ea20a9eeee64b55d39a"
    ++ "2192992a274fc1a836ba3c23a3feebbd454d4423643ce80e2a9ac94fa54ca49f".
Proof. vm_compute. reflexivity. Qed.

Example sha512_two_blocks :
  hashlib.sha512_hexdigest
    (encode ("abcdefghbcdefghicdefghijdefghijkefghijklfghijklmghijklmn"
             ++ "hijklmnoijklmnopjklmnopqklmnopqrlmnopqrsmnopqrstnopqrstu"))
  = "8e959b75dae313da8cf4f72814fc143f8f7779c6eb9f7fa17299aeadb6889018"
    ++ "501d289e4900f7e4331b99dec4b5433ac7d329eeb6dd26545e96e55b874be909".
Proof. vm_compute. reflexivity. Qed.

Example sha512_empty :
  hashlib.sha512_hexdigest (encode "")
  = "cf83e1357eefb8bdf1542850d66d8007d620e4050b5715dc83f4a921d36ce9ce"
    ++ "47d0d13c5d85f2b0ff8318d2877eec2f63b931bd47417a81a538327af927da3e".
Proof. vm_compute. reflexivity. Qed.

Example utf8_two_bytes :
  encode (String (ascii_of_N 233) "") = [xc3; xa9]%byte.
Proof. reflexivity. Qed.

(* ------------------------------------------------------------------ *)
(** ** Strings *)

Section StringFacts.

Lemma length_append (s1 s2 : string) :
  String.length (s1 ++ s2) = String.length s1 + String.length s2.
Proof. induction s1 as [|c s1 IH]; simpl; [reflexivity | now rewrite IH]. Qed.

Lemma length_slice_to (n : nat) (s : string) :
  String.length (slice_to n s) = Nat.min n (String.length s).
Proof.
  revert s; induction n as [|n IH]; intros [|c s]; simpl; try reflexivity.
  now rewrite IH.
Qed.

Lemma get_append_right (s1 s2 : string) (i : nat) :
  String.get (String.length s1 + i) (s1 ++ s2) = String.get i s2.
Proof. induction s1 as [|c s1 IH]; simpl; [reflexivity | exact IH]. Qed.



Lemma chars_append (s1 s2 : string) :
  list_ascii_of_string (s1 ++ s2)
  = (list_ascii_of_string s1 ++ list_ascii_of_string s2)%list.
Proof. induction s1 as [|c s1 IH]; simpl; [reflexivity | now rewrite IH]. Qed.

Lemma all_hex_append (s1 s2 : string) :
  Spec.all_hex (s1 ++ s2) = Spec.all_hex s1 && Spec.all_hex s2.
Proof. unfold Spec.all_hex. now rewrite chars_append, forallb_app. Qed.

Lemma all_hex_slice_to (n : nat) (s : string) :
  Spec.all_hex s = true -> Spec.all_hex (slice_to n s) = true.
Proof.
  unfold Spec.all_hex.
  revert s; induction n as [|n IH]; intros [|c s]; simpl; try reflexivity.
  rewrite !andb_true_iff; intros [Hc Hs]; auto.
Qed.

Lemma append_empty_r (s : string) : s ++ "" = s.
Proof. induction s as [|c s IH]; simpl; [reflexivity | now rewrite IH]. Qed.


Lemma concat_empty_cons (s : string) (l : list string) :
  String.concat "" (s :: l) = s ++ String.concat "" l.
Proof.
  destruct l as [|s' l']; simpl; [|reflexivity].
  induction s as [|c s IH]; simpl; [reflexivity | now rewrite <- IH].
Qed.

End StringFacts.

(* ------------------------------------------------------------------ *)
(** ** The hex digests *)

Section DigestFacts.
Import hashlib.

Lemma hexchar_is_hex (d : Z) : Address.is_hex (hexchar d) = true.
Proof.
  unfold hexchar. generalize (Z.to_nat d) as n; intros n.
  do 16 (destruct n as [|n]; [reflexivity|]). reflexivity.
Qed.

Lemma length_hexdigits (n : nat) (x : Z) :
  String.length (hexdigits n x) = n.
Proof. induction n as [|n IH]; simpl; [reflexivity | now rewrite IH]. Qed.

Lemma all_hex_hexdigits (n : nat) (x : Z) :
  Spec.all_hex (hexdigits n x) = true.
Proof.
  unfold Spec.all_hex. induction n as [|n IH]; [reflexivity|].
  cbn [hexdigits list_ascii_of_string forallb].
  now rewrite hexchar_is_hex, IH.
Qed.

Lemma length_hexdigest (v : variant) (msg : bytes) :
  String.length (hexdigest v msg) = 8 * Z.to_nat (wbits v / 4).
Proof.
  unfold hexdigest, hexword.
  rewrite !length_append, !length_hexdigits. lia.
Qed.

Lemma all_hex_hexdigest (v : variant) (msg : bytes) :
  Spec.all_hex (hexdigest v msg) = true.
Proof.
  unfold hexdigest, hexword.
  now rewrite !all_hex_append, !all_hex_hexdigits.
Qed.

Lemma length_sha512 (msg : bytes) :
  String.length (sha512_hexdigest msg) = 128.
Proof. unfold sha512_hexdigest. now rewrite length_hexdigest. Qed.

Lemma length_sha256 (msg : bytes) :
  String.length (sha256_hexdigest msg) = 64.
Proof. unfold sha256_hexdigest. now rewrite length_hexdigest. Qed.

Lemma length_hashup (value : string) :
  String.length (Address.hashup value) = 128.
Proof. apply length_sha512. Qed.

Lemma length_hashup_slice (n : nat) (value : string) :
  n <= 128 -> String.length (slice_to n (Address.hashup value)) = n.
Proof. intros Hn. rewrite length_slice_to, length_hashup. lia. Qed.

Lemma all_hex_hashup_slice (n : nat) (value : string) :
  Spec.all_hex (slice_to n (Address.hashup value)) = true.
Proof. apply all_hex_slice_to, all_hex_hexdigest. Qed.

Lemma length_short_hash (in_str : string) :
  String.length (eventsset._short_hash in_str) = 16.
Proof.
  unfold eventsset._short_hash. now rewrite length_slice_to, length_sha256.
Qed.

Lemma all_hex_short_hash (in_str : string) :
  Spec.all_hex (eventsset._short_hash in_str) = true.
Proof. apply all_hex_slice_to, all_hex_hexdigest. Qed.
End DigestFacts.

(* ------------------------------------------------------------------ *)
(** ** Replacing one character, as [set_utxq_matched] does on a list *)

Section ReplaceFacts.
Import Spec.

Lemma chars_cons (c : ascii) (s : string) :
  chars (String c s) = String c "" :: chars s.
Proof. reflexivity. Qed.

Lemma concat_chars (s : string) : String.concat "" (chars s) = s.
Proof.
  induction s as [|c s IH]; [reflexivity|].
  rewrite chars_cons, concat_empty_cons, IH. reflexivity.
Qed.

Lemma setitem_chars (s : string) (i : nat) (c : ascii) :
  setitem (chars s) i (String c "")
  = if (i <? String.length s)%nat then Ok (chars (replace_at i c s))
    else Raise (IndexError "list assignment index out of range").
Proof.
  revert i; induction s as [|d s IH]; intros i.
  - destruct i; reflexivity.
  - rewrite chars_cons. destruct i as [|i]; [reflexivity|].
    cbn [setitem replace_at String.length]. rewrite IH.
    change (S i <? S (String.length s))%nat with (i <? String.length s)%nat.
    destruct (i <? String.length s)%nat; reflexivity.
Qed.

Lemma length_replace_at (i : nat) (c : ascii) (s : string) :
  String.length (replace_at i c s) = String.length s.
Proof.
  revert i; induction s as [|d s IH]; intros [|i]; simpl; auto.
Qed.

Lemma get_replace_at_same (i : nat) (c : ascii) (s : string) :
  i < String.length s -> String.get i (replace_at i c s) = Some c.
Proof.
  revert i; induction s as [|d s IH]; intros [|i]; simpl; intros Hi;
    try lia; [reflexivity | apply IH; lia].
Qed.

Lemma get_replace_at_other (i j : nat) (c : ascii) (s : string) :
  j <> i -> String.get j (replace_at i c s) = String.get j s.
Proof.
  revert i j; induction s as [|d s IH]; intros [|i] [|j]; simpl; intros Hij;
    try reflexivity; try lia.
  apply IH; lia.
Qed.

Lemma replace_at_twice (i : nat) (c c' : ascii) (s : string) :
  replace_at i c (replace_at i c' s) = replace_at i c s.
Proof.
  revert i; induction s as [|d s IH]; intros [|i]; simpl; try reflexivity.
  now rewrite IH.
Qed.

Lemma replace_at_fixed (i : nat) (c : ascii) (s : string) :
  i < String.length s ->
  (replace_at i c s = s <-> String.get i s = Some c).
Proof.
  revert i; induction s as [|d s IH]; intros [|i]; simpl; intros Hi; try lia.
  - split; intros H; inversion H; reflexivity.
  - rewrite <- IH by lia. split; intros H.
    + injection H as H'. exact H'.
    + f_equal. exact H.
Qed.

Lemma slice_to_replace_at (n i : nat) (c : ascii) (s : string) :
  n <= i -> slice_to n (replace_at i c s) = slice_to n s.
Proof.
  revert n i; induction s as [|d s IH]; intros [|n] [|i]; simpl; intros Hn;
    try reflexivity; try lia.
  rewrite IH by lia. reflexivity.
Qed.

Lemma all_hex_replace_at (i : nat) (c : ascii) (s : string) :
  Address.is_hex c = true -> all_hex s = true ->
  all_hex (replace_at i c s) = true.
Proof.
  unfold all_hex.
  revert i; induction s as [|d s IH]; intros [|i]; simpl; intros Hc;
    rewrite ?andb_true_iff; intros H; try reflexivity.
  - now rewrite Hc.
  - destruct H as [Hd Hs]. split; [assumption | now apply IH].
Qed.

Lemma set_utxq_matched_eq (address : string) :
  Address.set_utxq_matched address
  = if (24 <? String.length address)%nat
    then Ok (replace_at 24 "1" address)
    else Raise (IndexError "list assignment index out of range").
Proof.
  unfold Address.set_utxq_matched.
  rewrite (setitem_chars address 24 "1").
  destruct (24 <? String.length address)%nat; [|reflexivity].
  cbn [rbind]. now rewrite concat_chars.
Qed.

Lemma set_utxq_unmatched_eq (address : string) :
  Address.set_utxq_unmatched address
  = if (24 <? String.length address)%nat
    then Ok (replace_at 24 "0" address)
    else Raise (IndexError "list assignment index out of range").
Proof.
  unfold Address.set_utxq_unmatched.
  rewrite (setitem_chars address 24 "0").
  destruct (24 <? String.length address)%nat; [|reflexivity].
  cbn [rbind]. now rewrite concat_chars.
Qed.
End ReplaceFacts.

(* ------------------------------------------------------------------ *)
(** ** Addresses built by an addresser *)

Section AddressFacts.
Import Address.

Lemma valid_leaf_address_iff (address : string) :
  valid_leaf_address address = true
  <-> String.length address = 70 /\ Spec.all_hex address = true.
Proof.
  unfold valid_leaf_address, valid_address, fullmatch_hex, Spec.all_hex.
  split.
  - intros H.
    apply andb_true_iff in H as [H Hl].
    apply andb_true_iff in H as [H _].
    apply andb_true_iff in H as [_ H].
    apply andb_true_iff in H as [_ Hh].
    apply Nat.eqb_eq in Hl. auto.
  - intros [Hl Hh]. rewrite Hh, Hl. reflexivity.
Qed.

Lemma leaf_address_type_valid (target address : string) :
  leaf_address_type target address = true ->
  String.length address = 70 /\ Spec.all_hex address = true.
Proof.
  unfold leaf_address_type. rewrite andb_true_iff.
  intros [H _]. now apply valid_leaf_address_iff.
Qed.


Lemma family_ns_hash_init (family : string) (versions : list string) :
  family_ns_hash (BaseAddress__init family versions)
  = ns_family (BaseAddress__init family versions).
Proof. reflexivity. Qed.

Lemma length_ns_family (family : string) (versions : list string) :
  String.length (ns_family (BaseAddress__init family versions)) = 12.
Proof.
  unfold ns_family, BaseAddress__init, _family_hash.
  rewrite length_append, length_hashup_slice by lia. reflexivity.
Qed.

Lemma all_hex_ns_family (family : string) (versions : list string) :
  Spec.all_hex (ns_family (BaseAddress__init family versions)) = true.
Proof.
  unfold ns_family, BaseAddress__init, _family_hash.
  rewrite all_hex_append, all_hex_hashup_slice. reflexivity.
Qed.

Lemma length_txq_list (family : string) (versions : list string)
      (dimension ops : string) :
  String.length (txq_list (BaseAddress__init family versions) dimension ops)
  = 24.
Proof.
  unfold txq_list, txq_dimension.
  rewrite !length_append, length_ns_family, !length_hashup_slice by lia.
  reflexivity.
Qed.

Lemma all_hex_txq_list (family : string) (versions : list string)
      (dimension ops : string) :
  Spec.all_hex (txq_list (BaseAddress__init family versions) dimension ops)
  = true.
Proof.
  unfold txq_list, txq_dimension.
  now rewrite !all_hex_append, all_hex_ns_family, !all_hex_hashup_slice.
Qed.
End AddressFacts.

(* ------------------------------------------------------------------ *)
(** ** Match addresses *)

(** C2. For every addresser, dimension, operation verb and identifier, the
    unmatched match-item address is the match-list prefix [txq_list] followed
    by '0' and the first 45 hex characters of the SHA-512 digest of the
    identifier; the prefix is 24 characters long, so the address is 70
    characters long and its status character '0' is at offset 24. It is a
    valid leaf address and reads as unmatched. *)
Theorem match2_initiate_unmatched_layout :
  forall (family : string) (versions : list string)
         (dimension ops ident : string),
    let self := Address.BaseAddress__init family versions in
    let address := Address.match2_initiate_unmatched self dimension ops ident in
    let tail := slice_to 45 (hashlib.sha512_hexdigest (encode ident)) in
    address = Address.txq_list self dimension ops ++ "0" ++ tail
    /\ String.length (Address.txq_list self dimension ops) = 24
    /\ String.length tail = 45
    /\ String.length address = 70
    /\ String.get 24 address = Some "0"%char
    /\ Address.is_utxq_matched address = Ok false
    /\ Address.valid_leaf_address address = true.
Proof.
  intros family versions dimension ops ident. cbv zeta.
  fold (Address.hashup ident).
  set (self := Address.BaseAddress__init family versions).
  assert (Hp : String.length (Address.txq_list self dimension ops) = 24)
    by apply length_txq_list.
  assert (Ht : String.length (slice_to 45 (Address.hashup ident)) = 45)
    by (apply length_hashup_slice; lia).
  assert (Hl : String.length
                 (Address.match2_initiate_unmatched self dimension ops ident)
               = 70).
  { unfold Address.match2_initiate_unmatched.
    rewrite !length_append, Hp, Ht. reflexivity. }
  assert (Hg : String.get 24
                 (Address.match2_initiate_unmatched self dimension ops ident)
               = Some "0"%char).
  { unfold Address.match2_initiate_unmatched.
    rewrite <- Hp at 1. rewrite <- (Nat.add_0_r (String.length _)).
    rewrite get_append_right. reflexivity. }
  split; [reflexivity|].
  do 4 (split; [assumption|]).
  split.
  - unfold Address.is_utxq_matched, getitem. rewrite Hg. reflexivity.
  - apply valid_leaf_address_iff. split; [assumption|].
    unfold Address.match2_initiate_unmatched, self.
    rewrite !all_hex_append, all_hex_txq_list, all_hex_hashup_slice.
    reflexivity.
Qed.

(** The match addressers are built, and their family prefix is the one
    [Spec.match_leaf] compares with. *)
Example match_addressers_prefix :
  exists utxq mtxq,
    Address.match_utxq_addresser = Ok utxq
    /\ Address.match_mtxq_addresser = Ok mtxq
    /\ Address.family_ns_hash (Address.match_base utxq) = "957682cc7a07"
    /\ Address.family_ns_hash (Address.match_base mtxq) = "957682cc7a07"
    /\ Address.family_ns_hash
         (Address.BaseAddress__init Address.FAMILY_MATCH ["0.2.0"])
       = "957682cc7a07".
Proof. vm_compute. eauto 10. Qed.

(** The end-to-end example of the specification: dimension "utxq", operation
    "ask" and a 44-character identifier. *)
Example match2_initiate_unmatched_utxq_ask :
  Address.match2_initiate_unmatched
    (Address.BaseAddress__init "match" ["0.2.0"]) "utxq" "ask"
    "0123456789abcdef0123456789abcdef0123456789ab"
  = "957682cc7a07c026596ee643049e9819b4b223fdd793bc1cbd67ba1306042bda97cf42".
Proof. vm_compute. reflexivity. Qed.

Section FlipFacts.
Import Address Spec.

Lemma match_leaf_long (address : string) :
  match_leaf address = true -> String.length address = 70.
Proof. intros H. now apply leaf_address_type_valid in H. Qed.

Lemma match_leaf_replace_at (c : ascii) (address : string) :
  is_hex c = true ->
  match_leaf address = true -> match_leaf (replace_at 24 c address) = true.
Proof.
  unfold match_leaf, leaf_address_type. intros Hc H.
  apply andb_true_iff in H as [Hv Hp].
  apply valid_leaf_address_iff in Hv as [Hl Hh].
  apply andb_true_iff; split.
  - apply valid_leaf_address_iff. rewrite length_replace_at.
    split; [assumption | now apply all_hex_replace_at].
  - rewrite slice_to_replace_at; [assumption|].
    rewrite family_ns_hash_init, length_ns_family. lia.
Qed.

(** Both flips, wherever they do not raise. *)
Lemma flip_long (address : string) :
  24 < String.length address ->
  set_utxq_matched address = Ok (replace_at 24 "1" address)
  /\ set_utxq_unmatched address = Ok (replace_at 24 "0" address).
Proof.
  intros Hl. rewrite set_utxq_matched_eq, set_utxq_unmatched_eq.
  apply Nat.ltb_lt in Hl. rewrite Hl. split; reflexivity.
Qed.

Lemma flip_short (address : string) :
  String.length address <= 24 ->
  set_utxq_matched address
  = Raise (IndexError "list assignment index out of range")
  /\ set_utxq_unmatched address
     = Raise (IndexError "list assignment index out of range").
Proof.
  intros Hl. rewrite set_utxq_matched_eq, set_utxq_unmatched_eq.
  apply Nat.ltb_ge in Hl. rewrite Hl. split; reflexivity.
Qed.
End FlipFacts.

(** C4, the claim as stated fails: a valid match-family leaf address whose
    status character is '1' (the matched form of the address above) is not
    returned by flipping to matched and back to unmatched. *)
Lemma matched_address_not_restored :
  let address :=
    "957682cc7a07c026596ee643149e9819b4b223fdd793bc1cbd67ba1306042bda97cf42" in
  Spec.match_leaf address = true
  /\ (m <- Address.set_utxq_matched address ;; Address.set_utxq_unmatched m)
     = Ok "957682cc7a07c026596ee643049e9819b4b223fdd793bc1cbd67ba1306042bda97cf42"
  /\ (m <- Address.set_utxq_matched address ;; Address.set_utxq_unmatched m)
     <> Ok address.
Proof.
  cbv zeta. split; [vm_compute; reflexivity|].
  split; [vm_compute; reflexivity|].
  vm_compute. discriminate.
Qed.

(** C4, amended. For every valid 70-character match-family leaf address,
    flipping to matched and then to unmatched succeeds and returns the
    original address exactly when its status character (index 24) is '0';
    each flip is idempotent, the round trip applied to its own result returns
    that result, each flip leaves every character except the one at index 24
    unchanged, and the results are again valid match-family leaf addresses. *)
Theorem flip_matched_then_unmatched :
  forall address : string,
    Spec.match_leaf address = true ->
    exists m u : string,
      Address.set_utxq_matched address = Ok m
      /\ Address.set_utxq_unmatched m = Ok u
      /\ (u = address <-> String.get 24 address = Some "0"%char)
      /\ Address.set_utxq_matched m = Ok m
      /\ Address.set_utxq_unmatched u = Ok u
      /\ (m' <- Address.set_utxq_matched u ;; Address.set_utxq_unmatched m')
         = Ok u
      /\ (forall i, i <> 24 -> String.get i m = String.get i address)
      /\ (forall i, i <> 24 -> String.get i u = String.get i m)
      /\ String.get 24 m = Some "1"%char
      /\ String.get 24 u = Some "0"%char
      /\ Spec.match_leaf m = true
      /\ Spec.match_leaf u = true.
Proof.
  intros address Hleaf.
  pose proof (match_leaf_long address Hleaf) as Hl.
  exists (Spec.replace_at 24 "1" address), (Spec.replace_at 24 "0" address).
  assert (H24 : 24 < String.length address) by lia.
  assert (Hm : 24 < String.length (Spec.replace_at 24 "1" address))
    by (rewrite length_replace_at; lia).
  assert (Hu : 24 < String.length (Spec.replace_at 24 "0" address))
    by (rewrite length_replace_at; lia).
  destruct (flip_long address H24) as [E1 _].
  destruct (flip_long _ Hm) as [E2 E3].
  destruct (flip_long _ Hu) as [E4 E5].
  rewrite replace_at_twice in E2, E3, E4, E5.
  split; [exact E1|]. split; [exact E3|].
  split; [apply replace_at_fixed; exact H24|].
  split; [exact E2|]. split; [exact E5|].
  split; [rewrite E4; cbn [rbind]; rewrite E3; reflexivity|].
  split; [intros i Hi; now apply get_replace_at_other|].
  split; [intros i Hi; now rewrite !get_replace_at_other|].
  split; [now apply get_replace_at_same|].
  split; [now apply get_replace_at_same|].
  split; now apply match_leaf_replace_at.
Qed.

Lemma flip_matched_then_unmatched_witness :
  Spec.match_leaf
    "957682cc7a07c026596ee643049e9819b4b223fdd793bc1cbd67ba1306042bda97cf42"
  = true
  /\ exists m,
       Address.set_utxq_matched
         "957682cc7a07c026596ee643049e9819b4b223fdd793bc1cbd67ba1306042bda97cf42"
       = Ok m
       /\ Address.set_utxq_unmatched m
          = Ok "957682cc7a07c026596ee643049e9819b4b223fdd793bc1cbd67ba1306042bda97cf42".
Proof.
  split; [vm_compute; reflexivity|].
  destruct (flip_matched_then_unmatched
              "957682cc7a07c026596ee643049e9819b4b223fdd793bc1cbd67ba1306042bda97cf42")
    as (m & u & Hm & Hu & Hiff & _).
  - vm_compute; reflexivity.
  - exists m. split; [exact Hm|].
    rewrite Hu. f_equal. apply Hiff. reflexivity.
Defined.

(** C5, the claim as stated fails: a 25-character string that is no valid
    leaf address is flipped without an error, and so is a valid leaf address
    of the unit family, which is not a match-family address. *)
Lemma invalid_address_is_flipped :
  let address := "zzzzzzzzzzzzzzzzzzzzzzzzz" in
  let unit_leaf :=
    "95768295638293ece543b18bc80123456789abcdef0123456789abcdef0123456789ab" in
  Address.valid_leaf_address address = false
  /\ Spec.match_leaf address = false
  /\ Address.set_utxq_matched address = Ok "zzzzzzzzzzzzzzzzzzzzzzzz1"
  /\ Address.set_utxq_unmatched address = Ok "zzzzzzzzzzzzzzzzzzzzzzzz0"
  /\ Address.unit_address "imperial" "foot"
       (Some "0123456789abcdef0123456789abcdef0123456789ab") = Ok unit_leaf
  /\ Spec.match_leaf unit_leaf = false
  /\ Address.set_utxq_matched unit_leaf
     = Ok "95768295638293ece543b18b180123456789abcdef0123456789abcdef0123456789ab".
Proof. vm_compute. repeat split. Qed.

(** C5, amended. [set_utxq_matched] and [set_utxq_unmatched] check nothing
    about their input: they raise (an [IndexError]) exactly when it has fewer
    than 25 characters. On every longer input, which includes every valid
    70-character leaf address, they return a string of the same length that
    is identical to the input except for the character at offset 24, which is
    '1' (matched) or '0' (unmatched). *)
Theorem flip_status_behaviour :
  forall address : string,
    ((exists e, Address.set_utxq_matched address = Raise e)
     <-> String.length address <= 24)
    /\ ((exists e, Address.set_utxq_unmatched address = Raise e)
        <-> String.length address <= 24)
    /\ (String.length address <= 24
        \/ exists m u : string,
             Address.set_utxq_matched address = Ok m
             /\ Address.set_utxq_unmatched address = Ok u
             /\ String.length m = String.length address
             /\ String.length u = String.length address
             /\ String.get 24 m = Some "1"%char
             /\ String.get 24 u = Some "0"%char
             /\ (forall i, i <> 24 ->
                   String.get i m = String.get i address
                   /\ String.get i u = String.get i address))
    /\ Address.valid_leaf_address address
       && (String.length address <=? 24)%nat = false.
Proof.
  intros address.
  destruct (Nat.le_gt_cases (String.length address) 24) as [Hs | Hlong].
  - destruct (flip_short address Hs) as [E1 E2].
    split; [split; [intros _; exact Hs | intros _; eauto]|].
    split; [split; [intros _; exact Hs | intros _; eauto]|].
    split; [left; exact Hs|].
    destruct (Address.valid_leaf_address address) eqn:Hv; [|reflexivity].
    apply valid_leaf_address_iff in Hv. lia.
  - destruct (flip_long address Hlong) as [E1 E2].
    split; [split; [intros [e He]; rewrite E1 in He; discriminate | lia]|].
    split; [split; [intros [e He]; rewrite E2 in He; discriminate | lia]|].
    split.
    + right. exists (Spec.replace_at 24 "1" address),
               (Spec.replace_at 24 "0" address).
      rewrite !length_replace_at, !get_replace_at_same by exact Hlong.
      repeat (split; [reflexivity || assumption|]).
      intros i Hi. now rewrite !get_replace_at_other.
    + apply Nat.leb_gt in Hlong. rewrite Hlong. apply andb_false_r.
Qed.

(* ------------------------------------------------------------------ *)
(** ** Item addresses of the unit and asset families *)

Section ItemFacts.
Import Address Spec.

Lemma valid_leaf_of_length (address : string) :
  String.length address = 70 ->
  valid_leaf_address address = all_hex address.
Proof.
  intros Hl.
  unfold valid_leaf_address, valid_address, fullmatch_hex, all_hex.
  rewrite Hl. destruct (forallb is_hex (list_ascii_of_string address));
    reflexivity.
Qed.

Lemma asset_item_cases (family : string) (versions : list string)
      (dimension system key : string) (ident : option string) :
  let self := BaseAddress__init family versions in
  (ident_rejected ident
   /\ exists msg, asset_item self dimension system key ident
                  = Raise (AssetIdRange msg))
  \/ (exists id a,
        ident = Some id /\ String.length id = 44
        /\ asset_item self dimension system key ident = Ok a
        /\ a = asset_item_syskey self dimension system key ++ id
        /\ String.length a = 70
        /\ valid_leaf_address a = all_hex id).
Proof.
  cbv zeta. destruct ident as [id|]; cbn [asset_item].
  2:{ left. split; [left; reflexivity | eauto]. }
  destruct (Nat.eqb_spec (String.length id) 44) as [Hl | Hl]; cbn [negb].
  2:{ left. split; [right; eauto | eauto]. }
  right. exists id, (asset_item_syskey (BaseAddress__init family versions)
                       dimension system key ++ id).
  assert (Hpre : String.length
                   (asset_item_syskey (BaseAddress__init family versions)
                      dimension system key) = 26).
  { unfold asset_item_syskey, asset_prefix.
    rewrite !length_append, length_ns_family, !length_hashup_slice by lia.
    destruct (dimension =? DIMENSION_UNIT)%string; reflexivity. }
  assert (Hhex : all_hex
                   (asset_item_syskey (BaseAddress__init family versions)
                      dimension system key) = true).
  { unfold asset_item_syskey, asset_prefix.
    rewrite !all_hex_append, all_hex_ns_family, !all_hex_hashup_slice.
    destruct (dimension =? DIMENSION_UNIT)%string; reflexivity. }
  assert (Hlen : String.length
                   (asset_item_syskey (BaseAddress__init family versions)
                      dimension system key ++ id) = 70)
    by (rewrite length_append, Hpre, Hl; reflexivity).
  repeat (split; [reflexivity || assumption|]).
  rewrite (valid_leaf_of_length _ Hlen), all_hex_append, Hhex. reflexivity.
Qed.

Lemma element_address_cases (family : string) (versions : list string)
      (system key : string) (ident : option string) :
  let self := BaseAddress__init family versions in
  (ident_rejected ident
   /\ exists msg, element_address self system key ident
                  = Raise (AssetIdRange msg))
  \/ (exists id a,
        ident = Some id /\ String.length id = 44
        /\ element_address self system key ident = Ok a
        /\ a = family_ns_hash self ++ slice_to 8 (hashup system)
                 ++ slice_to 6 (hashup key) ++ id
        /\ String.length a = 70
        /\ valid_leaf_address a = all_hex id).
Proof.
  cbv zeta. destruct ident as [id|]; cbn [element_address].
  2:{ left. split; [left; reflexivity | eauto]. }
  destruct (Nat.eqb_spec (String.length id) 44) as [Hl | Hl]; cbn [negb].
  2:{ left. split; [right; eauto | eauto]. }
  right. eexists id, _. split; [reflexivity|]. split; [assumption|].
  split; [reflexivity|]. split; [reflexivity|].
  assert (Hlen : String.length
                   (family_ns_hash (BaseAddress__init family versions)
                      ++ slice_to 8 (hashup system)
                      ++ slice_to 6 (hashup key) ++ id) = 70).
  { rewrite family_ns_hash_init, !length_append, length_ns_family,
      !length_hashup_slice, Hl by lia. reflexivity. }
  split; [assumption|].
  rewrite (valid_leaf_of_length _ Hlen), family_ns_hash_init.
  rewrite !all_hex_append, all_hex_ns_family, !all_hex_hashup_slice.
  reflexivity.
Qed.

Lemma rejected_not_44 (id : string) :
  String.length id = 44 -> ~ ident_rejected (Some id).
Proof.
  intros Hl [H | (id' & H & Hn)]; [discriminate|].
  injection H as <-. contradiction.
Qed.
End ItemFacts.

(** C3, the claim as stated fails: an identifier of 44 characters that are
    not hex digits is not "exactly 44 hex characters", and the three
    constructors accept it. *)
Lemma nonhex_ident_of_length_44_accepted :
  let ident := Some "zzzzzzzzzzzzzzzzzzzzzzzzzzzzzzzzzzzzzzzzzzzz" in
  Spec.is_44_hex ident = false
  /\ (exists a, Address.asset_item (Address.voting_base Address.AssetAddress)
                  "unit" "imperial" "foot" ident = Ok a)
  /\ (exists a, Address.unit_address "imperial" "foot" ident = Ok a)
  /\ (exists a, Address.asset_address "imperial" "foot" ident = Ok a).
Proof. vm_compute. eauto 10. Qed.

(** C3, amended. [asset_item] (of any addresser), [unit_address] and
    [asset_address] raise [AssetIdRange] exactly when the identifier is absent
    or its length is not 44; the characters of the identifier are not
    examined. For every identifier of length 44 they succeed and return a
    70-character address, which is a valid leaf address exactly when the
    identifier consists of hex digits. *)
Theorem item_address_fails_iff_length :
  forall (family : string) (versions : list string)
         (dimension system key : string) (ident : option string),
    let self := Address.BaseAddress__init family versions in
    ((exists msg, Address.asset_item self dimension system key ident
                  = Raise (AssetIdRange msg))
     <-> Spec.ident_rejected ident)
    /\ ((exists msg, Address.unit_address system key ident
                     = Raise (AssetIdRange msg))
        <-> Spec.ident_rejected ident)
    /\ ((exists msg, Address.asset_address system key ident
                     = Raise (AssetIdRange msg))
        <-> Spec.ident_rejected ident)
    /\ (Spec.ident_rejected ident
        \/ exists id a b c,
             ident = Some id /\ String.length id = 44
             /\ Address.asset_item self dimension system key ident = Ok a
             /\ Address.unit_address system key ident = Ok b
             /\ Address.asset_address system key ident = Ok c
             /\ String.length a = 70 /\ String.length b = 70
             /\ String.length c = 70
             /\ Address.valid_leaf_address a = Spec.all_hex id
             /\ Address.valid_leaf_address b = Spec.all_hex id
             /\ Address.valid_leaf_address c = Spec.all_hex id).
Proof.
  intros family versions dimension system key ident. cbv zeta.
  pose proof (asset_item_cases family versions dimension system key ident)
    as Ha.
  pose proof (element_address_cases "unit" ["0.3.0"] system key ident) as Hb.
  pose proof (element_address_cases "asset" ["0.3.0"] system key ident) as Hc.
  cbv zeta in Ha, Hb, Hc.
  change (Address.element_address (Address.BaseAddress__init "unit" ["0.3.0"]))
    with Address.unit_address in Hb.
  change (Address.element_address (Address.BaseAddress__init "asset" ["0.3.0"]))
    with Address.asset_address in Hc.
  destruct Ha as [[Hr Ha] | (id & a & Hid & Hl & Ha & _ & Hla & Hva)].
  - (* rejected *)
    destruct Hb as [[_ Hb] | (id & _ & Hid & Hl & _)];
      [|subst ident; now apply rejected_not_44 in Hr].
    destruct Hc as [[_ Hc] | (id & _ & Hid & Hl & _)];
      [|subst ident; now apply rejected_not_44 in Hr].
    repeat split; auto.
  - (* accepted *)
    pose proof (rejected_not_44 id Hl) as Hnr. rewrite <- Hid in Hnr.
    destruct Hb as [[Hr _] | (id' & b & Hid' & _ & Hb & _ & Hlb & Hvb)];
      [contradiction|].
    destruct Hc as [[Hr _] | (id'' & c & Hid'' & _ & Hc & _ & Hlc & Hvc)];
      [contradiction|].
    assert (id' = id) by congruence. assert (id'' = id) by congruence.
    subst id' id''.
    split; [split; [intros [msg E]; congruence | contradiction]|].
    split; [split; [intros [msg E]; congruence | contradiction]|].
    split; [split; [intros [msg E]; congruence | contradiction]|].
    right. exists id, a, b, c. repeat split; assumption.
Qed.

(* ------------------------------------------------------------------ *)
(** ** Key addresses of the events client *)

Section SplitFacts.
Variable sep : ascii.

Lemma split_nonempty (m : nat) (s : string) : split sep m s <> [].
Proof.
  destruct s as [|c s]; simpl; [discriminate|].
  destruct (Ascii.eqb c sep).
  - destruct m; discriminate.
  - destruct (split sep m s); discriminate.
Qed.

Lemma length_split (m : nat) (s : string) :
  1 <= List.length (split sep m s) <= S m.
Proof.
  revert m; induction s as [|c s IH]; intros m; simpl; [lia|].
  destruct (Ascii.eqb c sep).
  - destruct m as [|m]; simpl; [lia|]. specialize (IH m). lia.
  - specialize (IH m). destruct (split sep m s); simpl in *; lia.
Qed.

Lemma concat_cons_char (c : ascii) (p : string) (ps : list string) :
  String.concat (String sep "") (String c p :: ps)
  = String c (String.concat (String sep "") (p :: ps)).
Proof. destruct ps; reflexivity. Qed.

Lemma concat_split (m : nat) (s : string) :
  String.concat (String sep "") (split sep m s) = s.
Proof.
  revert m; induction s as [|c s IH]; intros m; [reflexivity|].
  cbn [split]. destruct (Ascii.eqb_spec c sep) as [-> | Hc].
  - destruct m as [|m]; [reflexivity|].
    specialize (IH m). pose proof (split_nonempty m s) as Hne.
    destruct (split sep m s) as [|p ps]; [contradiction|].
    change (String.concat (String sep "") ("" :: p :: ps))
      with ("" ++ String sep "" ++ String.concat (String sep "") (p :: ps)).
    rewrite IH. reflexivity.
  - specialize (IH m). pose proof (split_nonempty m s) as Hne.
    destruct (split sep m s) as [|p ps]; [contradiction|].
    rewrite concat_cons_char, IH. reflexivity.
Qed.

(** No separator is left in a part that was cut off; the last part has
    none either unless all [m] cuts were made. *)
Lemma split_free (m : nat) (s : string) :
  Forall (Spec.free_of sep) (removelast (split sep m s))
  /\ (List.length (split sep m s) = S m
      \/ Forall (Spec.free_of sep) (split sep m s)).
Proof.
  unfold Spec.free_of.
  revert m; induction s as [|c s IH]; intros m.
  - split; [constructor|]. right. constructor; [intros []|constructor].
  - cbn [split]. destruct (Ascii.eqb_spec c sep) as [-> | Hc].
    + destruct m as [|m]; [split; [constructor | left; reflexivity]|].
      destruct (IH m) as [H1 H2]. pose proof (split_nonempty m s) as Hne.
      destruct (split sep m s) as [|p ps] eqn:E; [contradiction|].
      split.
      * change (removelast ("" :: p :: ps)) with ("" :: removelast (p :: ps)).
        constructor; [intros []|exact H1].
      * destruct H2 as [H2 | H2]; [left; simpl in *; lia|].
        right. constructor; [intros []|exact H2].
    + destruct (IH m) as [H1 H2]. pose proof (split_nonempty m s) as Hne.
      destruct (split sep m s) as [|p ps] eqn:E; [contradiction|].
      split.
      * destruct ps as [|q ps]; [constructor|].
        change (removelast (String c p :: q :: ps))
          with (String c p :: removelast (q :: ps)).
        change (removelast (p :: q :: ps))
          with (p :: removelast (q :: ps)) in H1.
        inversion H1 as [|? ? Hp Hrest]; subst.
        constructor; [|exact Hrest].
        simpl. intros [Heq | Hin]; [congruence | contradiction].
      * destruct H2 as [H2 | H2]; [left; exact H2|].
        right. inversion H2 as [|? ? Hp Hrest]; subst.
        constructor; [|exact Hrest].
        simpl. intros [Heq | Hin]; [congruence | contradiction].
Qed.
End SplitFacts.

(** C1, the claim as stated fails: the address of a key is 70 characters
    long, not 30, and differs from the address the specification describes
    (SHA-512 parts of 6 characters). *)
Lemma key_to_address_is_not_30_chars :
  let key := "hashblock.events.vote.proposals" in
  eventsset._key_to_address key
  = "ca2fee9561d6b1245f6aac862417b9e7c3720bab274474a6aa82c1c0cbf0fbcaf64c0b"
  /\ String.length (eventsset._key_to_address key) = 70
  /\ String.length (Spec.keyToAddress key) = 30
  /\ eventsset._key_to_address key <> Spec.keyToAddress key.
Proof.
  cbv zeta. split; [vm_compute; reflexivity|].
  split; [vm_compute; reflexivity|].
  split; [vm_compute; reflexivity|].
  vm_compute. discriminate.
Qed.

(** C1, amended. For every dotted key, [_key_to_address] splits the key on
    '.' into at most 4 parts (the first three cuts; the fourth part keeps any
    further dots), pads the missing parts with empty strings, and returns the
    fixed namespace hash (the first 6 hex characters of the SHA-512 digest of
    "events") followed, for each of the 4 parts, by the first 16 hex
    characters of the SHA-256 hex digest of its UTF-8 bytes: exactly
    6 + 4 * 16 = 70 hex characters. *)
Theorem key_to_address_layout :
  forall key : string,
    let parts := split "." 3 key in
    let part_hash :=
      fun p => slice_to 16 (hashlib.sha256_hexdigest (encode p)) in
    exists p1 p2 p3 p4 : string,
      (parts ++ repeat "" (4 - List.length parts))%list = [p1; p2; p3; p4]
      /\ 1 <= List.length parts <= 4
      /\ String.concat "." parts = key
      /\ Forall (Spec.free_of ".") (removelast parts)
      /\ (List.length parts = 4 \/ Forall (Spec.free_of ".") parts)
      /\ eventsset._key_to_address key
         = eventsset.UNITS_NAMESPACE
             ++ part_hash p1 ++ part_hash p2 ++ part_hash p3 ++ part_hash p4
      /\ eventsset.UNITS_NAMESPACE
         = slice_to 6 (hashlib.sha512_hexdigest (encode "events"))
      /\ String.length eventsset.UNITS_NAMESPACE = 6
      /\ String.length (part_hash p1) = 16
      /\ String.length (part_hash p2) = 16
      /\ String.length (part_hash p3) = 16
      /\ String.length (part_hash p4) = 16
      /\ String.length (eventsset._key_to_address key) = 70
      /\ Spec.all_hex (eventsset._key_to_address key) = true.
Proof.
  intros key. cbv zeta.
  pose proof (length_split "." 3 key) as Hlen.
  pose proof (concat_split "." 3 key) as Hcat.
  pose proof (split_free "." 3 key) as [Hinit Hlast].
  assert (Hpad : exists p1 p2 p3 p4,
             (split "." 3 key
                ++ repeat "" (4 - List.length (split "." 3 key)))%list
             = [p1; p2; p3; p4]).
  { destruct (split "." 3 key) as [|a [|b [|c [|d [|e l]]]]];
      simpl in Hlen; try lia; simpl; eauto. }
  destruct Hpad as (p1 & p2 & p3 & p4 & Hpad).
  exists p1, p2, p3, p4.
  assert (Haddr : eventsset._key_to_address key
                  = eventsset.UNITS_NAMESPACE
                      ++ eventsset._short_hash p1 ++ eventsset._short_hash p2
                      ++ eventsset._short_hash p3 ++ eventsset._short_hash p4).
  { unfold eventsset._key_to_address, eventsset._MAX_KEY_PARTS.
    change (4 - 1) with 3. rewrite Hpad.
    cbn [map]. rewrite !concat_empty_cons.
    change (String.concat "" []) with "".
    rewrite append_empty_r. reflexivity. }
  split; [exact Hpad|]. split; [exact Hlen|]. split; [exact Hcat|].
  split; [exact Hinit|]. split; [exact Hlast|]. split; [exact Haddr|].
  split; [vm_compute; reflexivity|]. split; [reflexivity|].
  do 4 (split; [apply length_short_hash|]).
  rewrite Haddr. split.
  - rewrite !length_append, !length_short_hash. reflexivity.
  - rewrite !all_hex_append, !all_hex_short_hash. reflexivity.
Qed.

(* ------------------------------------------------------------------ *)
(** ** Runs of the client's constructors *)

Section RunFacts.
Context (env : Env).
Context {msg_proposal : Message EventProposal.t}
        {msg_vote : Message EventVote.t}
        {msg_payload : Message EventPayload.t}
        {msg_txn_header : Message TransactionHeader.t}
        {msg_batch_header : Message BatchHeader.t}
        {msg_batch_list : Message BatchList.t}
        {msg_event : Message Event.t}
        {msg_candidates : Message EventCandidates.t}.

Lemma bind_ok {A B} (m : M A) (k : A -> M B) (tr tr' : list effect) (a : A) :
  m tr = (Ok a, tr') -> bind m k tr = k a tr'.
Proof. intros H. unfold bind. now rewrite H. Qed.


Lemma make_txn_run (signer : Signer) (event_key : string)
      (payload : EventPayload.t) (tr : list effect) :
  eventsset._make_txn signer event_key payload tr
  = (Ok (Built.txn signer event_key payload),
     (tr ++ [Sign (Transaction.header
                     (Built.txn signer event_key payload))])%list).
Proof. reflexivity. Qed.

(** No propose transaction is built: once the pair is unpacked and the clock
    is read, the unbound [EventProposal] raises. *)
Lemma create_propose_txn_run (signer : Signer) (code value : string)
      (tr : list effect) :
  eventsset._create_propose_txn env signer [code; value] tr
  = (Raise (NameError "name 'EventProposal' is not defined"),
     (tr ++ [UtcNow])%list).
Proof. reflexivity. Qed.

Lemma create_vote_txn_run (signer : Signer)
      (proposal_id event_key vote_value : string) (tr : list effect) :
  eventsset._create_vote_txn signer proposal_id event_key vote_value tr
  = (Raise (NameError "name 'EventVote' is not defined"), tr).
Proof.
  unfold eventsset._create_vote_txn, bind.
  destruct (vote_value =? "accept")%string; reflexivity.
Qed.

Lemma create_batch_run (signer : Signer) (transactions : list Transaction.t)
      (tr : list effect) :
  eventsset._create_batch signer transactions tr
  = (Ok (Built.batch signer transactions),
     (tr ++ [Sign (Batch.header (Built.batch signer transactions))])%list).
Proof. reflexivity. Qed.

(** Reading the proposals asks the REST API for one leaf; when the API
    answers, the unbound [EventCandidates] raises. *)
Lemma get_proposals_run (rest_client : string) (tr : list effect) :
  eventsset._get_proposals env rest_client tr
  = (match get_leaf env rest_client
             (eventsset._key_to_address proposals_key) with
     | Ok _ => Raise (NameError "name 'EventCandidates' is not defined")
     | Raise e => Raise e
     end,
     (tr ++ [GetLeaf rest_client
               (eventsset._key_to_address proposals_key)])%list).
Proof.
  unfold eventsset._get_proposals, proposals_key, bind, perform.
  destruct (get_leaf env rest_client _) as [leaf|e]; reflexivity.
Qed.
End RunFacts.

(* ------------------------------------------------------------------ *)
(** ** Batches *)

(** C9. For every signer and every list of transactions, [_create_batch]
    returns a batch that contains exactly the given transactions in the given
    order; its header is the serialized batch header whose transaction-id
    list is the list of the transactions' header signatures in the same
    order (the i-th id is the i-th transaction's signature), and the batch is
    signed over that header. *)
Theorem create_batch_preserves_order :
  forall {msg_batch_header : Message BatchHeader.t}
         (signer : Signer) (transactions : list Transaction.t)
         (tr : list effect),
  exists (batch : Batch.t) (header : BatchHeader.t),
    eventsset._create_batch signer transactions tr
    = (Ok batch, (tr ++ [Sign (SerializeToString header)])%list)
    /\ Batch.transactions batch = transactions
    /\ Batch.header batch = SerializeToString header
    /\ Batch.header_signature batch = sign signer (SerializeToString header)
    /\ BatchHeader.signer_public_key header = get_public_key_as_hex signer
    /\ BatchHeader.transaction_ids header
       = map Transaction.header_signature transactions
    /\ List.length (BatchHeader.transaction_ids header)
       = List.length transactions
    /\ (forall i : nat,
          nth_error (BatchHeader.transaction_ids header) i
          = option_map Transaction.header_signature
                       (nth_error transactions i)).
Proof.
  intros msg_batch_header signer transactions tr.
  exists (Built.batch signer transactions),
         (Built.batch_header signer transactions).
  split; [apply create_batch_run|].
  do 5 (split; [reflexivity|]).
  split; [apply length_map|].
  intros i. apply nth_error_map.
Qed.

(* ------------------------------------------------------------------ *)
(** ** The candidate listing *)

Section ListingFacts.
Import Listing.










End ListingFacts.






(* ------------------------------------------------------------------ *)
(** ** Voting *)

(** C7. A vote never reaches the duplicate-vote check. [_do_event_reciprocate]
    reads the key file and asks for the proposals leaf; when both succeed,
    [_get_proposals] raises [NameError] on the unbound [EventCandidates]
    (l.243), before any candidate or recorded vote is looked at. Every run
    ends in the error of the key file, the error of the REST API or that
    [NameError]; nothing is signed and nothing is sent. *)
Theorem vote_stops_before_duplicate_check :
  forall (env : Env)
         {msg_vote : Message EventVote.t}
         {msg_payload : Message EventPayload.t}
         {msg_txn_header : Message TransactionHeader.t}
         {msg_batch_header : Message BatchHeader.t}
         {msg_event : Message Event.t}
         {msg_candidates : Message EventCandidates.t}
         (args : eventsset.VoteArgs) (tr : list effect),
    let address := eventsset._key_to_address proposals_key in
    let read := ReadKeyFile (eventsset.vote_key args) in
    eventsset._do_event_reciprocate env args tr
    = match key_files env (eventsset.vote_key args) with
      | Raise e => (Raise e, (tr ++ [read])%list)
      | Ok signer =>
          (match get_leaf env (eventsset.vote_url args) address with
           | Raise e => Raise e
           | Ok state_leaf =>
               Raise (NameError "name 'EventCandidates' is not defined")
           end,
           (tr ++ [read; GetLeaf (eventsset.vote_url args) address])%list)
      end.
Proof.
  intros env msg_vote msg_payload msg_txn_header msg_batch_header msg_event
         msg_candidates args tr. cbv zeta.
  unfold eventsset._do_event_reciprocate, eventsset._read_signer.
  unfold bind at 1. unfold perform at 1.
  destruct (key_files env (eventsset.vote_key args)) as [signer|e];
    [|reflexivity].
  unfold bind at 1. rewrite get_proposals_run, <- app_assoc.
  destruct (get_leaf env (eventsset.vote_url args) _) as [leaf|e];
    reflexivity.
Qed.

(** The state holds candidate C1 with a recorded vote by K1, and the voter
    signs with K1: the run ends in [NameError], not in the duplicate-vote
    [CliException], whatever the vote value. *)
Example duplicate_vote_ends_in_name_error :
  forall vote_value : string,
    @eventsset._do_event_reciprocate Fixture.env
      (Fixture.write_only _) (Fixture.write_only _) (Fixture.write_only _)
      (Fixture.write_only _) Fixture.event_message
      (Fixture.candidates_message [Fixture.C1])
      {| eventsset.vote_key := None;
         eventsset.vote_url := "http://rest-api:8008";
         eventsset.vote_proposal_id := "p1";
         eventsset.vote_value := vote_value |} []
    = (Raise (NameError "name 'EventCandidates' is not defined"),
       [ReadKeyFile None;
        GetLeaf "http://rest-api:8008"
          (eventsset._key_to_address proposals_key)]).
Proof. intros vote_value. reflexivity. Qed.

(* ------------------------------------------------------------------ *)
(** ** Genesis *)

Section GenesisFacts.

Lemma append_assoc (s1 s2 s3 : string) : (s1 ++ s2) ++ s3 = s1 ++ s2 ++ s3.
Proof. induction s1 as [|c s1 IH]; simpl; [reflexivity | now rewrite IH]. Qed.

Lemma concat_contains (sep x : string) (l : list string) :
  In x l ->
  exists before after, String.concat sep l = before ++ x ++ after.
Proof.
  induction l as [|y l IH]; [intros []|].
  intros [-> | Hin].
  - destruct l as [|z l].
    + exists "", "". simpl. now rewrite append_empty_r.
    + exists "", (sep ++ String.concat sep (z :: l)). reflexivity.
  - destruct (IH Hin) as (before & after & E).
    destruct l as [|z l]; [destruct Hin|].
    exists (y ++ sep ++ before), after.
    change (String.concat sep (y :: z :: l))
      with (y ++ sep ++ String.concat sep (z :: l)).
    rewrite E, !append_assoc. reflexivity.
Qed.

Lemma signer_key_authorized (authorized_key : option (list string))
      (public_key : string) :
  In public_key (eventsset.genesis_authorized_keys authorized_key public_key).
Proof.
  unfold eventsset.genesis_authorized_keys.
  destruct (existsb _ _) eqn:E; cbn [negb].
  - apply existsb_exists in E as (k & Hin & Hk).
    apply String.eqb_eq in Hk. now subst k.
  - apply in_or_app. right. left. reflexivity.
Qed.
End GenesisFacts.

(** C6. The genesis builder never reaches its threshold tests and never
    succeeds. [_do_config_genesis] reads the key file, computes the
    authorized keys and calls [_create_propose_txn] (l.208), which reads the
    clock and raises [NameError] on the unbound [EventProposal] (l.327),
    before the tests of l.213-220. Every run ends in the error of the key
    file or in that [NameError], whatever the keys and the threshold; nothing
    is signed and no batch file is written. *)
Theorem genesis_stops_at_first_proposal :
  forall (env : Env)
         {msg_proposal : Message EventProposal.t}
         {msg_payload : Message EventPayload.t}
         {msg_txn_header : Message TransactionHeader.t}
         {msg_batch_header : Message BatchHeader.t}
         {msg_batch_list : Message BatchList.t}
         (args : eventsset.GenesisArgs) (tr : list effect),
    let read := ReadKeyFile (eventsset.genesis_key args) in
    eventsset._do_config_genesis env args tr
    = match key_files env (eventsset.genesis_key args) with
      | Raise e => (Raise e, (tr ++ [read])%list)
      | Ok signer =>
          (Raise (NameError "name 'EventProposal' is not defined"),
           (tr ++ [read; UtcNow])%list)
      end.
Proof.
  intros env msg_proposal msg_payload msg_txn_header msg_batch_header
         msg_batch_list args tr. cbv zeta.
  unfold eventsset._do_config_genesis, eventsset._read_signer.
  unfold bind at 1. unfold perform at 1.
  destruct (key_files env (eventsset.genesis_key args)) as [signer|e];
    [|reflexivity].
  unfold bind at 1. rewrite create_propose_txn_run, <- app_assoc.
  reflexivity.
Qed.

(** The specification's governance examples, with the key file of a signer
    whose key is K1: no keys and threshold 0, two keys and threshold 3, no
    keys and threshold 1 all end in the same [NameError]. *)
Example genesis_examples_end_in_name_error :
  let run (keys : list string) (threshold : Z) :=
    @eventsset._do_config_genesis Fixture.env
      (Fixture.write_only _) (Fixture.write_only _) (Fixture.write_only _)
      (Fixture.write_only _) (Fixture.write_only _)
      {| eventsset.genesis_key := None;
         eventsset.authorized_key := Some keys;
         eventsset.approval_threshold := Some threshold;
         eventsset.output := "genesis.batch" |} [] in
  let stopped : result unit * list effect :=
    (Raise (NameError "name 'EventProposal' is not defined"),
     [ReadKeyFile None; UtcNow]) in
  run [] 0%Z = stopped
  /\ run [Fixture.K1; Fixture.K2] 3%Z = stopped
  /\ run [] 1%Z = stopped.
Proof. cbv zeta. split; [|split]; reflexivity. Qed.

(* ================================================================== *)
(** * Further properties of the addressers *)

Section SliceFacts.

Lemma slice_to_from (n : nat) (s : string) :
  slice_to n s ++ slice_from n s = s.
Proof.
  revert s; induction n as [|n IH]; intros [|c s]; simpl; try reflexivity.
  now rewrite IH.
Qed.

Lemma slice_to_append (t r : string) : slice_to (String.length t) (t ++ r) = t.
Proof. induction t as [|c t IH]; simpl; [now destruct r | now rewrite IH]. Qed.

Lemma slice_from_append (t r : string) :
  slice_from (String.length t) (t ++ r) = r.
Proof. induction t as [|c t IH]; simpl; [now destruct r | exact IH]. Qed.

Lemma slice_to_prefix_iff (t a : string) :
  slice_to (String.length t) a = t <-> exists rest, a = t ++ rest.
Proof.
  split.
  - intros H. exists (slice_from (String.length t) a).
    rewrite <- H at 1. symmetry. apply slice_to_from.
  - intros [rest ->]. apply slice_to_append.
Qed.

Lemma slice_to_slice_to (n m : nat) (s : string) :
  n <= m -> slice_to n (slice_to m s) = slice_to n s.
Proof.
  revert m s; induction n as [|n IH]; intros [|m] [|c s] H; simpl;
    try reflexivity; try lia.
  rewrite IH by lia. reflexivity.
Qed.

Lemma slice_to_append_left (n : nat) (t r : string) :
  n <= String.length t -> slice_to n (t ++ r) = slice_to n t.
Proof.
  revert t; induction n as [|n IH]; intros [|c t] H; simpl in *;
    try reflexivity; try lia.
  rewrite IH by lia. reflexivity.
Qed.

Lemma append_inj_right (a x y : string) : a ++ x = a ++ y -> x = y.
Proof.
  induction a as [|c a IH]; simpl; intros H; [exact H|].
  injection H as H. now apply IH.
Qed.

Lemma append_same_length_inj (a b r r' : string) :
  String.length a = String.length b -> a ++ r = b ++ r' -> a = b.
Proof.
  revert b; induction a as [|c a IH]; intros [|d b] Hl H; simpl in *;
    try reflexivity; try discriminate.
  injection H as -> H. f_equal. apply IH; [lia | exact H].
Qed.
End SliceFacts.

Section LeafFacts.
Import Address.

Lemma leaf_address_type_spec (target address : string) :
  leaf_address_type target address = true
  <-> String.length address = 70
      /\ Spec.all_hex address = true
      /\ slice_to (String.length target) address = target.
Proof.
  unfold leaf_address_type.
  rewrite andb_true_iff, valid_leaf_address_iff, String.eqb_eq.
  split; [intros [[Hl Hh] E] | intros [Hl [Hh E]]]; auto.
Qed.

Lemma get_lt_some (s : string) (i : nat) :
  i < String.length s -> exists c, String.get i s = Some c.
Proof.
  revert i; induction s as [|d s IH]; simpl; intros i Hi; [lia|].
  destruct i as [|i]; [eauto | apply IH; lia].
Qed.

Lemma get_some_lt (s : string) (i : nat) (c : ascii) :
  String.get i s = Some c -> i < String.length s.
Proof.
  revert i; induction s as [|d s IH]; simpl; intros i Hi; [discriminate|].
  destruct i as [|i]; [lia | apply IH in Hi; lia].
Qed.

Lemma all_hex_get (s : string) (i : nat) (c : ascii) :
  Spec.all_hex s = true -> String.get i s = Some c -> is_hex c = true.
Proof.
  unfold Spec.all_hex.
  revert i; induction s as [|d s IH]; simpl; intros i Hh Hi; [discriminate|].
  apply andb_true_iff in Hh as [Hd Hs].
  destruct i as [|i]; [now injection Hi as <- | eapply IH; eassumption].
Qed.

Lemma is_utxq_matched_eq (address : string) :
  is_utxq_matched address
  = match String.get 24 address with
    | Some c => Ok (Ascii.eqb c "1")
    | None => Raise (IndexError "string index out of range")
    end.
Proof.
  unfold is_utxq_matched, getitem.
  destruct (String.get 24 address) as [c|]; [|reflexivity].
  cbn [rbind String.eqb]. now destruct (Ascii.eqb c "1").
Qed.
End LeafFacts.

(** X1. [leaf_address_type target address] holds exactly when [address] is a
    string of 70 hex digits that starts with [target]; so the empty target
    types every valid leaf address, and a target of more than 70 characters
    types none. *)
Theorem leaf_address_type_iff_prefix :
  forall target address : string,
    (Address.leaf_address_type target address = true
     <-> String.length address = 70
         /\ Spec.all_hex address = true
         /\ exists rest, address = target ++ rest)
    /\ Address.leaf_address_type "" address
       = Address.valid_leaf_address address
    /\ (70 <? String.length target)%nat
       && Address.leaf_address_type target address = false.
Proof.
  intros target address. split; [|split].
  - rewrite leaf_address_type_spec, slice_to_prefix_iff. reflexivity.
  - unfold Address.leaf_address_type. cbn [String.length slice_to].
    destruct address; cbn [String.eqb]; apply andb_true_r.
  - destruct (Nat.ltb_spec 70 (String.length target)) as [Hlong | _];
      [|reflexivity].
    cbn [andb].
    destruct (Address.leaf_address_type target address) eqn:Hv;
      [|reflexivity].
    apply leaf_address_type_spec in Hv as (Hl & _ & E).
    apply (f_equal String.length) in E.
    rewrite length_slice_to, Hl in E. lia.
Qed.

(** X2. For every addresser and dimension, [settings] and [candidates]
    return valid leaf addresses of 70 hex digits under the addresser's own
    namespace-and-family prefix; the candidates address also lies under
    [candidates_base], and the override [SettingAddress.settings] computes
    the same address as [Address.settings]. *)
Theorem settings_and_candidates_are_leaves :
  forall (family : string) (versions : list string) (dimension : string),
    let self := Address.BaseAddress__init family versions in
    String.length (Address.settings self dimension) = 70
    /\ String.length (Address.candidates self dimension) = 70
    /\ Address.leaf_address_type (Address.family_ns_hash self)
         (Address.settings self dimension) = true
    /\ Address.leaf_address_type (Address.family_ns_hash self)
         (Address.candidates self dimension) = true
    /\ Address.leaf_address_type (Address.candidates_base self)
         (Address.candidates self dimension) = true
    /\ String.length (Address.candidates_base self) = 18
    /\ Address.SettingAddress_settings self dimension
       = Address.settings self dimension.
Proof.
  intros family versions dimension. cbv zeta.
  assert (Hs : String.length (Address.settings (Address.BaseAddress__init family versions) dimension) = 70).
  { unfold Address.settings.
    rewrite !length_append, length_ns_family, length_hashup_slice by lia.
    reflexivity. }
  assert (Hb : String.length (Address.candidates_base (Address.BaseAddress__init family versions)) = 18).
  { unfold Address.candidates_base.
    rewrite length_append, length_ns_family. reflexivity. }
  assert (Hc : String.length (Address.candidates (Address.BaseAddress__init family versions) dimension) = 70).
  { unfold Address.candidates.
    rewrite !length_append, Hb, length_hashup_slice by lia. reflexivity. }
  assert (Hhs : Spec.all_hex (Address.settings (Address.BaseAddress__init family versions) dimension) = true).
  { unfold Address.settings.
    now rewrite !all_hex_append, all_hex_ns_family, all_hex_hashup_slice. }
  assert (Hhc : Spec.all_hex (Address.candidates (Address.BaseAddress__init family versions) dimension) = true).
  { unfold Address.candidates, Address.candidates_base.
    now rewrite !all_hex_append, all_hex_ns_family, all_hex_hashup_slice. }
  split; [exact Hs|]. split; [exact Hc|].
  split.
  { apply leaf_address_type_spec. split; [assumption|]. split; [assumption|].
    rewrite family_ns_hash_init.
    unfold Address.settings. apply slice_to_append. }
  split.
  { apply leaf_address_type_spec. split; [assumption|]. split; [assumption|].
    rewrite family_ns_hash_init.
    unfold Address.candidates, Address.candidates_base.
    rewrite !append_assoc. apply slice_to_append. }
  split.
  { apply leaf_address_type_spec. split; [assumption|]. split; [assumption|].
    unfold Address.candidates. apply slice_to_append. }
  split; [exact Hb | reflexivity].
Qed.

(** X3. [is_utxq_matched] raises exactly on addresses of fewer than 25
    characters and otherwise answers whether the character at index 24 is
    '1'. It composes with the flips: on every address of at least 25
    characters the result of [set_utxq_matched] reads as matched and the
    result of [set_utxq_unmatched] as unmatched. *)
Theorem is_utxq_matched_reads_status :
  forall address : string,
    ((exists e, Address.is_utxq_matched address = Raise e)
     <-> String.length address <= 24)
    /\ (Address.is_utxq_matched address = Ok true
        <-> String.get 24 address = Some "1"%char)
    /\ (Address.is_utxq_matched address = Ok false
        <-> exists c, String.get 24 address = Some c /\ c <> "1"%char)
    /\ (String.length address <= 24
        \/ (m <- Address.set_utxq_matched address ;;
            Address.is_utxq_matched m) = Ok true
           /\ (u <- Address.set_utxq_unmatched address ;;
               Address.is_utxq_matched u) = Ok false).
Proof.
  intros address. rewrite is_utxq_matched_eq.
  destruct (Nat.le_gt_cases (String.length address) 24) as [Hs | Hlong].
  - assert (Hn : String.get 24 address = None).
    { destruct (String.get 24 address) eqn:E; [|reflexivity].
      apply get_some_lt in E. lia. }
    rewrite Hn.
    split; [split; [intros _; exact Hs | eauto]|].
    split; [split; discriminate|].
    split; [split; [discriminate | intros (c & Hc & _); discriminate]|].
    left. exact Hs.
  - destruct (get_lt_some address 24 Hlong) as [c Hc]. rewrite Hc.
    split; [split; [intros [e He]; discriminate | lia]|].
    split.
    { split; intros H.
      - injection H as H. apply Ascii.eqb_eq in H. now subst c.
      - injection H as ->. reflexivity. }
    split.
    { split.
      - intros H. injection H as H. exists c. split; [reflexivity|].
        now apply Ascii.eqb_neq.
      - intros (c' & H & Hne). injection H as <-.
        apply Ascii.eqb_neq in Hne. now rewrite Hne. }
    right. destruct (flip_long address Hlong) as [E1 E2].
    rewrite E1, E2. cbn [rbind]. rewrite !is_utxq_matched_eq.
    rewrite !get_replace_at_same by exact Hlong. split; reflexivity.
Qed.

(** X4. For every addresser, dimension, operation and identifier, [txq_item]
    and [match2_initiate_unmatched] return valid leaf addresses that lie
    under [txq_list], under [txq_dimension] and under the addresser's family
    prefix; the two addresses share their first 24 characters. *)
Theorem match_items_lie_in_their_list :
  forall (family : string) (versions : list string)
         (dimension ops ident : string),
    let self := Address.BaseAddress__init family versions in
    let item := Address.txq_item self dimension ops ident in
    let unmatched :=
      Address.match2_initiate_unmatched self dimension ops ident in
    String.length item = 70
    /\ Address.leaf_address_type (Address.txq_list self dimension ops) item
       = true
    /\ Address.leaf_address_type (Address.txq_list self dimension ops)
         unmatched = true
    /\ Address.leaf_address_type (Address.txq_dimension self dimension) item
       = true
    /\ Address.leaf_address_type (Address.txq_dimension self dimension)
         unmatched = true
    /\ Address.leaf_address_type (Address.family_ns_hash self) item = true
    /\ Address.leaf_address_type (Address.family_ns_hash self) unmatched
       = true
    /\ slice_to 24 item = slice_to 24 unmatched.
Proof.
  intros family versions dimension ops ident. cbv zeta.
  pose proof (length_txq_list family versions dimension ops) as Hp.
  assert (Hd : String.length (Address.txq_dimension (Address.BaseAddress__init family versions) dimension) = 18).
  { unfold Address.txq_dimension.
    rewrite length_append, length_ns_family, length_hashup_slice by lia.
    reflexivity. }
  assert (Hi : String.length (Address.txq_item (Address.BaseAddress__init family versions) dimension ops ident) = 70).
  { unfold Address.txq_item.
    rewrite length_append, Hp, length_hashup_slice by lia. reflexivity. }
  assert (Hu : String.length
                 (Address.match2_initiate_unmatched (Address.BaseAddress__init family versions) dimension ops ident)
               = 70).
  { unfold Address.match2_initiate_unmatched.
    rewrite !length_append, Hp, length_hashup_slice by lia. reflexivity. }
  assert (Hhi : Spec.all_hex (Address.txq_item (Address.BaseAddress__init family versions) dimension ops ident)
                = true).
  { unfold Address.txq_item.
    now rewrite all_hex_append, all_hex_txq_list, all_hex_hashup_slice. }
  assert (Hhu : Spec.all_hex
                  (Address.match2_initiate_unmatched (Address.BaseAddress__init family versions) dimension ops ident)
                = true).
  { unfold Address.match2_initiate_unmatched.
    now rewrite !all_hex_append, all_hex_txq_list, all_hex_hashup_slice. }
  assert (Pi : slice_to 24 (Address.txq_item (Address.BaseAddress__init family versions) dimension ops ident)
               = Address.txq_list (Address.BaseAddress__init family versions) dimension ops).
  { rewrite <- Hp at 1. apply slice_to_append. }
  assert (Pu : slice_to 24
                 (Address.match2_initiate_unmatched (Address.BaseAddress__init family versions) dimension ops ident)
               = Address.txq_list (Address.BaseAddress__init family versions) dimension ops).
  { rewrite <- Hp at 1. apply slice_to_append. }
  assert (Pd : slice_to 18 (Address.txq_list (Address.BaseAddress__init family versions) dimension ops)
               = Address.txq_dimension (Address.BaseAddress__init family versions) dimension).
  { rewrite <- Hd at 1. apply slice_to_append. }
  assert (Pf : slice_to 12 (Address.txq_dimension (Address.BaseAddress__init family versions) dimension)
               = Address.family_ns_hash (Address.BaseAddress__init family versions)).
  { rewrite family_ns_hash_init.
    rewrite <- (length_ns_family family versions) at 1.
    apply slice_to_append. }
  split; [exact Hi|].
  split; [apply leaf_address_type_spec; rewrite Hp; split; [assumption|]; split; assumption|].
  split; [apply leaf_address_type_spec; rewrite Hp; split; [assumption|]; split; assumption|].
  split.
  { apply leaf_address_type_spec. rewrite Hd. split; [assumption|]. split; [assumption|].
    rewrite <- (slice_to_slice_to 18 24) by lia. now rewrite Pi. }
  split.
  { apply leaf_address_type_spec. rewrite Hd. split; [assumption|]. split; [assumption|].
    rewrite <- (slice_to_slice_to 18 24) by lia. now rewrite Pu. }
  split.
  { apply leaf_address_type_spec. rewrite family_ns_hash_init, length_ns_family.
    split; [assumption|]. split; [assumption|].
    rewrite <- (slice_to_slice_to 12 24), Pi by lia.
    rewrite <- (slice_to_slice_to 12 18), Pd by lia. exact Pf. }
  split.
  { apply leaf_address_type_spec. rewrite family_ns_hash_init, length_ns_family.
    split; [assumption|]. split; [assumption|].
    rewrite <- (slice_to_slice_to 12 24), Pu by lia.
    rewrite <- (slice_to_slice_to 12 18), Pd by lia. exact Pf. }
  now rewrite Pi, Pu.
Qed.

(** X5. The status flips never move an address out of its place: for every
    target of at most 24 characters (a family prefix, a [txq_dimension], a
    [txq_list]), an address typed by [leaf_address_type target] is flipped by
    both [set_utxq_matched] and [set_utxq_unmatched] into addresses of the
    same type. *)
Theorem flips_keep_leaf_address_type :
  forall target address : string,
    String.length target <= 24 ->
    Address.leaf_address_type target address = true ->
    exists m u : string,
      Address.set_utxq_matched address = Ok m
      /\ Address.set_utxq_unmatched address = Ok u
      /\ Address.leaf_address_type target m = true
      /\ Address.leaf_address_type target u = true.
Proof.
  intros target address Ht Hleaf.
  apply leaf_address_type_spec in Hleaf as (Hl & Hh & Hp).
  assert (H24 : 24 < String.length address) by lia.
  destruct (flip_long address H24) as [E1 E2].
  exists (Spec.replace_at 24 "1" address), (Spec.replace_at 24 "0" address).
  split; [exact E1|]. split; [exact E2|].
  split; apply leaf_address_type_spec; rewrite length_replace_at;
    (split; [exact Hl|]); (split; [now apply all_hex_replace_at|]);
    rewrite slice_to_replace_at by exact Ht; exact Hp.
Qed.

Lemma flips_keep_leaf_address_type_witness :
  exists m,
    Address.set_utxq_matched
      "957682cc7a07c026596ee643049e9819b4b223fdd793bc1cbd67ba1306042bda97cf42"
    = Ok m
    /\ Address.leaf_address_type "957682cc7a07c026596ee643" m = true.
Proof.
  destruct (flips_keep_leaf_address_type "957682cc7a07c026596ee643"
              "957682cc7a07c026596ee643049e9819b4b223fdd793bc1cbd67ba1306042bda97cf42")
    as (m & u & Hm & _ & Hlm & _).
  - simpl. lia.
  - vm_compute. reflexivity.
  - exists m. split; assumption.
Defined.

(** X6. [is_family] compares the 12-character namespace-and-family hash with
    the first 6 characters of the address, so for every addresser it is
    false on every address, the addresser's own addresses included. *)
Theorem is_family_is_never_true :
  forall (family : string) (versions : list string) (address : string),
    Address.is_family (Address.BaseAddress__init family versions) address
    = false.
Proof.
  intros family versions address. unfold Address.is_family.
  apply String.eqb_neq. intros E.
  apply (f_equal String.length) in E.
  rewrite family_ns_hash_init, length_ns_family, length_slice_to in E. lia.
Qed.

(** X7. [asset_prefix] knows one dimension, "unit": every other dimension,
    known or not, is addressed as the resource dimension, so [asset_item]
    returns for it the address it returns for "resource"; the unit and
    resource addresses of the same system, key and identifier differ. *)
Theorem asset_item_other_dimension_is_resource :
  forall (family : string) (versions : list string)
         (dimension system key ident : string),
    dimension <> Address.DIMENSION_UNIT ->
    let self := Address.BaseAddress__init family versions in
    Address.asset_item_syskey self dimension system key
    = Address.asset_item_syskey self Address.DIMENSION_RESOURCE system key
    /\ (forall a,
          Address.asset_item self dimension system key (Some ident) = Ok a
          <-> Address.asset_item self Address.DIMENSION_RESOURCE system key
                (Some ident) = Ok a)
    /\ Address.asset_item_syskey self Address.DIMENSION_UNIT system key
       <> Address.asset_item_syskey self dimension system key.
Proof.
  intros family versions dimension system key ident Hd. cbv zeta.
  assert (E : Address.asset_prefix (Address.BaseAddress__init family versions)
                dimension
              = Address.ns_family (Address.BaseAddress__init family versions)
                  ++ "01").
  { unfold Address.asset_prefix.
    apply String.eqb_neq in Hd. rewrite Hd. reflexivity. }
  assert (Es : Address.asset_item_syskey
                 (Address.BaseAddress__init family versions)
                 dimension system key
               = Address.asset_item_syskey
                   (Address.BaseAddress__init family versions)
                   Address.DIMENSION_RESOURCE system key).
  { unfold Address.asset_item_syskey. rewrite E. reflexivity. }
  split; [exact Es|]. split.
  - intros a. unfold Address.asset_item. rewrite Es.
    destruct (negb (String.length ident =? 44)%nat);
      [split; discriminate | reflexivity].
  - unfold Address.asset_item_syskey. rewrite E.
    unfold Address.asset_prefix. cbn [String.eqb Address.DIMENSION_UNIT].
    intros H.
    apply append_same_length_inj in H;
      [|rewrite !length_append; reflexivity].
    apply append_inj_right in H. discriminate.
Qed.

Lemma asset_item_other_dimension_is_resource_witness :
  Address.asset_item_syskey (Address.voting_base Address.AssetAddress)
    "utxq" "imperial" "foot"
  = Address.asset_item_syskey (Address.voting_base Address.AssetAddress)
      "resource" "imperial" "foot".
Proof.
  destruct (asset_item_other_dimension_is_resource "asset" ["0.3.0"]
              "utxq" "imperial" "foot" "") as [E _].
  - discriminate.
  - exact E.
Defined.

(** X8. The identifier can be read back from an item address: for every
    identifier of length 44, [asset_item] and [element_address] (the body of
    [unit_address] and [asset_address]) return an address whose characters
    from offset 26 on are the identifier and whose first 26 characters do
    not depend on it; two identifiers with the same address are equal. *)
Theorem item_address_keeps_identifier :
  forall (family : string) (versions : list string)
         (dimension system key ident : string),
    String.length ident = 44 ->
    let self := Address.BaseAddress__init family versions in
    exists a b : string,
      Address.asset_item self dimension system key (Some ident) = Ok a
      /\ Address.element_address self system key (Some ident) = Ok b
      /\ slice_from 26 a = ident
      /\ slice_from 26 b = ident
      /\ slice_to 26 a = Address.asset_item_syskey self dimension system key
      /\ slice_to 26 b
         = Address.family_ns_hash self
             ++ slice_to 8 (Address.hashup system)
             ++ slice_to 6 (Address.hashup key)
      /\ (forall ident',
            Address.asset_item self dimension system key (Some ident') = Ok a
            -> ident' = ident)
      /\ (forall ident',
            Address.element_address self system key (Some ident') = Ok b
            -> ident' = ident).
Proof.
  intros family versions dimension system key ident Hl. cbv zeta.
  set (pa := Address.asset_item_syskey
               (Address.BaseAddress__init family versions)
               dimension system key).
  set (pb := Address.family_ns_hash (Address.BaseAddress__init family versions)
               ++ slice_to 8 (Address.hashup system)
               ++ slice_to 6 (Address.hashup key)).
  assert (Hpa : String.length pa = 26).
  { unfold pa, Address.asset_item_syskey, Address.asset_prefix.
    rewrite !length_append, length_ns_family, !length_hashup_slice by lia.
    destruct (dimension =? Address.DIMENSION_UNIT)%string; reflexivity. }
  assert (Hpb : String.length pb = 26).
  { unfold pb. rewrite family_ns_hash_init.
    rewrite !length_append, length_ns_family, !length_hashup_slice by lia.
    reflexivity. }
  assert (Ea : forall id, String.length id = 44 ->
             Address.asset_item (Address.BaseAddress__init family versions)
               dimension system key (Some id) = Ok (pa ++ id)).
  { intros id Hid. unfold Address.asset_item.
    apply Nat.eqb_eq in Hid. rewrite Hid. reflexivity. }
  assert (Eb : forall id, String.length id = 44 ->
             Address.element_address
               (Address.BaseAddress__init family versions)
               system key (Some id) = Ok (pb ++ id)).
  { intros id Hid. unfold Address.element_address.
    apply Nat.eqb_eq in Hid. rewrite Hid. cbn [negb].
    unfold pb. rewrite !append_assoc. reflexivity. }
  exists (pa ++ ident), (pb ++ ident).
  split; [now apply Ea|]. split; [now apply Eb|].
  split; [rewrite <- Hpa; apply slice_from_append|].
  split; [rewrite <- Hpb; apply slice_from_append|].
  split; [rewrite <- Hpa; apply slice_to_append|].
  split; [rewrite <- Hpb; apply slice_to_append|].
  split.
  - intros ident' H.
    destruct (Nat.eq_dec (String.length ident') 44) as [Hl' | Hl'].
    + rewrite (Ea ident' Hl') in H.
      assert (Hab : pa ++ ident' = pa ++ ident) by congruence.
      now apply append_inj_right in Hab.
    + unfold Address.asset_item in H.
      apply Nat.eqb_neq in Hl'. rewrite Hl' in H. discriminate.
  - intros ident' H.
    destruct (Nat.eq_dec (String.length ident') 44) as [Hl' | Hl'].
    + rewrite (Eb ident' Hl') in H.
      assert (Hab : pb ++ ident' = pb ++ ident) by congruence.
      now apply append_inj_right in Hab.
    + unfold Address.element_address in H.
      apply Nat.eqb_neq in Hl'. rewrite Hl' in H. discriminate.
Qed.

Lemma item_address_keeps_identifier_witness :
  exists b,
    Address.unit_address "imperial" "foot"
      (Some "0123456789abcdef0123456789abcdef0123456789ab") = Ok b
    /\ slice_from 26 b = "0123456789abcdef0123456789abcdef0123456789ab".
Proof.
  destruct (item_address_keeps_identifier "unit" ["0.3.0"] "unit" "imperial"
              "foot" "0123456789abcdef0123456789abcdef0123456789ab")
    as (a & b & _ & Hb & _ & Hsb & _).
  - reflexivity.
  - exists b. split; [exact Hb | exact Hsb].
Defined.

(** X9. For every family, the setting and candidate addresses of a
    [VotingAddress] are valid leaf addresses of 70 hex digits; the setting
    address is the address [SettingAddress.settings] gives the family, a leaf
    of the setting family, and the candidate address lies under the namespace
    and candidates hashes, followed by the family hash and the 52-character
    filler. *)
Theorem voting_addresses_are_leaves :
  forall (family : string) (versions : list string),
    let self := Address.VotingAddress__init family versions in
    Address.setting_address self
    = Address.SettingAddress_settings Address.SettingAddress family
    /\ Address.candidate_address self
       = Address._namespace_hash ++ Address._candidates_hash
           ++ slice_to 6 (Address.hashup family) ++ Address._filler_hash26
    /\ Address.leaf_address_type
         (Address.family_ns_hash Address.SettingAddress)
         (Address.setting_address self) = true
    /\ Address.leaf_address_type
         (Address._namespace_hash ++ Address._candidates_hash)
         (Address.candidate_address self) = true
    /\ Address.voting_base self = Address.BaseAddress__init family versions.
Proof.
  intros family versions. cbv zeta.
  split; [reflexivity|]. split; [reflexivity|].
  split; [|split; [|reflexivity]].
  - apply leaf_address_type_spec.
    unfold Address.setting_address, Address.VotingAddress__init,
      Address._setting_addy, Address.SettingAddress_settings,
      Address.SettingAddress.
    rewrite family_ns_hash_init.
    split.
    { rewrite !length_append, length_ns_family, length_hashup_slice by lia.
      reflexivity. }
    split.
    { now rewrite !all_hex_append, all_hex_ns_family, all_hex_hashup_slice. }
    apply slice_to_append.
  - apply leaf_address_type_spec.
    unfold Address.candidate_address, Address.VotingAddress__init,
      Address._candidate_addy, Address.family_hash, Address.BaseAddress__init,
      Address._family_hash.
    split.
    { rewrite !length_append, length_hashup_slice by lia. reflexivity. }
    split.
    { now rewrite !all_hex_append, all_hex_hashup_slice. }
    rewrite <- append_assoc. apply slice_to_append.
Qed.

(** X10. For every dimension that UTF-8 encodes (the strings of this
    development, whose characters are the code points U+0000 to U+00FF) and
    every version list, [MatchAddress.__init__] returns: indexing the SHA-512
    hex digest of the dimension at 6 is in range. The addresser it builds is
    of the "match" family, and its dimension address is the 12-character
    family prefix followed by one hex digit, the character at index 6 of that
    digest. *)
Theorem match_addresser_is_built :
  forall (dimension : string) (versions : list string),
    exists (self : Address.MatchAddress) (c : ascii),
      Address.MatchAddress__init dimension versions = Ok self
      /\ Address.match_base self = Address.BaseAddress__init "match" versions
      /\ Address.dimension self = dimension
      /\ String.get 6 (Address.hashup dimension) = Some c
      /\ Address.is_hex c = true
      /\ Address.dimension_address self
         = Address.family_ns_hash (Address.match_base self) ++ String c ""
      /\ String.length (Address.dimension_address self) = 13.
Proof.
  intros dimension versions.
  destruct (get_lt_some (Address.hashup dimension) 6) as [c Hc];
    [rewrite length_hashup; lia|].
  eexists _, c. unfold Address.MatchAddress__init, getitem.
  rewrite Hc. cbn [rbind].
  split; [reflexivity|]. split; [reflexivity|]. split; [reflexivity|].
  split; [reflexivity|].
  split; [eapply all_hex_get; [apply all_hex_hexdigest | exact Hc]|].
  split; [reflexivity|].
  unfold Address.dimension_address, Address._dimension_address.
  rewrite family_ns_hash_init, length_append, length_ns_family. reflexivity.
Qed.

(* ================================================================== *)
(** * Further properties of the events client *)

Section KeyFacts.

Lemma length_split_count (sep : ascii) (m : nat) (s : string) :
  List.length (split sep m s)
  = Nat.min (S m) (S (count_occ ascii_dec (list_ascii_of_string s) sep)).
Proof.
  revert m; induction s as [|c s IH]; intros m; [simpl; lia|].
  cbn [split list_ascii_of_string].
  destruct (Ascii.eqb_spec c sep) as [-> | Hc].
  - rewrite count_occ_cons_eq by reflexivity.
    destruct m as [|m]; [simpl; lia|].
    cbn [List.length]. rewrite IH. lia.
  - rewrite count_occ_cons_neq by exact Hc.
    specialize (IH m). pose proof (split_nonempty sep m s) as Hne.
    destruct (split sep m s) as [|p ps]; [contradiction|]. exact IH.
Qed.

Lemma split_append_sep (sep : ascii) (m : nat) (s : string) :
  List.length (split sep m s) <= m ->
  split sep m (s ++ String sep "") = (split sep m s ++ [""])%list.
Proof.
  revert m; induction s as [|c s IH]; intros m Hl.
  - destruct m as [|m]; [simpl in Hl; lia|].
    cbn [String.append split]. rewrite Ascii.eqb_refl. reflexivity.
  - cbn [String.append split] in *.
    destruct (Ascii.eqb c sep).
    + destruct m as [|m]; [simpl in Hl; lia|].
      cbn [List.length] in Hl. rewrite IH by lia. reflexivity.
    + pose proof (split_nonempty sep m s) as Hne.
      specialize (IH m).
      destruct (split sep m s) as [|p ps]; [contradiction|].
      rewrite IH by exact Hl. reflexivity.
Qed.

(** The address of a key by its four padded parts. *)
Lemma key_to_address_parts (key : string) :
  exists p1 p2 p3 p4,
    eventsset._key_to_address key
    = eventsset.UNITS_NAMESPACE
        ++ eventsset._short_hash p1 ++ eventsset._short_hash p2
        ++ eventsset._short_hash p3 ++ eventsset._short_hash p4.
Proof.
  pose proof (length_split "." 3 key) as Hlen.
  unfold eventsset._key_to_address, eventsset._MAX_KEY_PARTS.
  change (4 - 1) with 3.
  destruct (split "." 3 key) as [|a [|b [|c [|d [|e l]]]]];
    simpl in Hlen; try lia;
    cbn [List.length Nat.sub repeat app map];
    rewrite !concat_empty_cons; change (String.concat "" []) with "";
    rewrite append_empty_r; eauto.
Qed.

Lemma key_to_address_leaf (key : string) :
  String.length (eventsset._key_to_address key) = 70
  /\ Spec.all_hex (eventsset._key_to_address key) = true
  /\ slice_to 6 (eventsset._key_to_address key) = eventsset.UNITS_NAMESPACE.
Proof.
  destruct (key_to_address_parts key) as (p1 & p2 & p3 & p4 & E).
  rewrite E. split; [|split].
  - rewrite !length_append, !length_short_hash. reflexivity.
  - rewrite !all_hex_append, !all_hex_short_hash. reflexivity.
  - apply (slice_to_append eventsset.UNITS_NAMESPACE).
Qed.
End KeyFacts.

(** X11. Keys are addressed up to trailing dots while they have fewer than
    four parts: for every key with at most two dots, the key followed by a
    dot has the same address, because the part the dot adds is the empty
    part that padding adds anyway. *)
Theorem key_to_address_ignores_trailing_dot :
  forall key : string,
    count_occ ascii_dec (list_ascii_of_string key) "."%char <= 2 ->
    eventsset._key_to_address (key ++ ".") = eventsset._key_to_address key.
Proof.
  intros key Hdots.
  pose proof (length_split_count "." 3 key) as Hlen.
  assert (Hl : List.length (split "." 3 key) <= 3) by lia.
  pose proof (length_split "." 3 key) as Hpos.
  unfold eventsset._key_to_address, eventsset._MAX_KEY_PARTS.
  change (4 - 1) with 3.
  rewrite (split_append_sep "." 3 key Hl), length_app. cbn [List.length].
  rewrite <- app_assoc. do 3 f_equal.
  destruct (split "." 3 key) as [|a [|b [|c [|d l]]]];
    simpl in Hl, Hpos; try lia; reflexivity.
Qed.

Lemma key_to_address_ignores_trailing_dot_witness :
  eventsset._key_to_address "hashblock.events."
  = eventsset._key_to_address "hashblock.events".
Proof.
  apply (key_to_address_ignores_trailing_dot "hashblock.events").
  simpl. lia.
Defined.

(** X12. For every key, the input and output addresses of a transaction are
    strings of 70 hex digits that [Address.valid_leaf_address] accepts and
    that start with the events namespace hash; every output address is also
    an input address, and the address of the key itself is among both. The
    events namespace is not the "hashblock" namespace of the addressers: no
    addresser's family prefix types the address of a key. *)
Theorem config_addresses_are_leaves :
  forall key : string,
    Forall (fun a => Address.valid_leaf_address a = true
                     /\ slice_to 6 a = eventsset.UNITS_NAMESPACE)
           (eventsset._config_inputs key)
    /\ incl (eventsset._config_outputs key) (eventsset._config_inputs key)
    /\ In (eventsset._key_to_address key) (eventsset._config_outputs key)
    /\ List.length (eventsset._config_inputs key) = 4
    /\ List.length (eventsset._config_outputs key) = 2
    /\ (forall (family : string) (versions : list string),
          Address.leaf_address_type
            (Address.family_ns_hash
               (Address.BaseAddress__init family versions))
            (eventsset._key_to_address key) = false).
Proof.
  intros key.
  assert (Hleaf : forall k,
             Address.valid_leaf_address (eventsset._key_to_address k) = true
             /\ slice_to 6 (eventsset._key_to_address k)
                = eventsset.UNITS_NAMESPACE).
  { intros k. destruct (key_to_address_leaf k) as (Hl & Hh & Hp).
    split; [apply valid_leaf_address_iff; auto | exact Hp]. }
  split; [repeat constructor; apply Hleaf|].
  split.
  { intros a [<- | [<- | []]]; [left; reflexivity|].
    right. right. right. left. reflexivity. }
  split; [right; left; reflexivity|].
  split; [reflexivity|]. split; [reflexivity|].
  intros family versions.
  destruct (Address.leaf_address_type _ _) eqn:E; [|reflexivity].
  apply leaf_address_type_spec in E as (_ & _ & E).
  rewrite family_ns_hash_init, length_ns_family in E.
  apply (f_equal (slice_to 6)) in E.
  rewrite slice_to_slice_to in E by lia.
  destruct (key_to_address_leaf key) as (_ & _ & Hp). rewrite Hp in E.
  unfold Address.ns_family in E.
  rewrite (slice_to_append Address._namespace_hash) in E.
  vm_compute in E. discriminate.
Qed.

(** X13. For every signer, key and payload, [_make_txn] signs once and
    returns a transaction whose header is the serialized header naming the
    signer as signer and batcher, the input and output addresses of the key,
    no dependencies, and as payload digest the 128-character SHA-512 hex
    digest of the very payload bytes the transaction carries; the signature
    is the signer's signature of that header. *)
Theorem make_txn_binds_payload :
  forall {msg_payload : Message EventPayload.t}
         {msg_txn_header : Message TransactionHeader.t}
         (signer : Signer) (event_key : string) (payload : EventPayload.t)
         (tr : list effect),
  exists (txn : Transaction.t) (header : TransactionHeader.t),
    eventsset._make_txn signer event_key payload tr
    = (Ok txn, (tr ++ [Sign (SerializeToString header)])%list)
    /\ Transaction.header txn = SerializeToString header
    /\ Transaction.payload txn = SerializeToString payload
    /\ Transaction.header_signature txn
       = sign signer (SerializeToString header)
    /\ TransactionHeader.payload_sha512 header
       = hashlib.sha512_hexdigest (Transaction.payload txn)
    /\ String.length (TransactionHeader.payload_sha512 header) = 128
    /\ TransactionHeader.signer_public_key header
       = get_public_key_as_hex signer
    /\ TransactionHeader.batcher_public_key header
       = get_public_key_as_hex signer
    /\ TransactionHeader.inputs header = eventsset._config_inputs event_key
    /\ TransactionHeader.outputs header = eventsset._config_outputs event_key
    /\ TransactionHeader.dependencies header = []
    /\ TransactionHeader.family_name header = "hashblock_events"
    /\ TransactionHeader.family_version header = "0.1.0".
Proof.
  intros msg_payload msg_txn_header signer event_key payload tr.
  eexists (Built.txn signer event_key payload), _.
  split; [apply make_txn_run|].
  do 4 (split; [reflexivity|]).
  split; [apply length_sha512|].
  repeat (split; [reflexivity|]). reflexivity.
Qed.

(** X14. Neither transaction constructor returns. [_create_vote_txn] raises
    [NameError] on the unbound [EventVote] for every vote value, before
    anything else happens. [_create_propose_txn] on a pair reads the clock
    and raises [NameError] on the unbound [EventProposal]; on a sequence of
    another length it raises the [ValueError] of the unpacking before that.
    Nothing is signed. *)
Theorem txn_constructors_raise :
  forall (env : Env)
         {msg_proposal : Message EventProposal.t}
         {msg_vote : Message EventVote.t}
         {msg_payload : Message EventPayload.t}
         {msg_txn_header : Message TransactionHeader.t}
         (signer : Signer) (tr : list effect),
    (forall proposal_id event_key vote_value : string,
       eventsset._create_vote_txn signer proposal_id event_key vote_value tr
       = (Raise (NameError "name 'EventVote' is not defined"), tr))
    /\ (forall event_key event_value : string,
          eventsset._create_propose_txn env signer
            [event_key; event_value] tr
          = (Raise (NameError "name 'EventProposal' is not defined"),
             (tr ++ [UtcNow])%list))
    /\ (forall event_key_value : list string,
          List.length event_key_value <> 2 ->
          exists msg : string,
            eventsset._create_propose_txn env signer event_key_value tr
            = (Raise (ValueError msg), tr)).
Proof.
  intros env msg_proposal msg_vote msg_payload msg_txn_header signer tr.
  split; [intros; apply create_vote_txn_run|].
  split; [intros; apply create_propose_txn_run|].
  intros [|a [|b [|c l]]] Hlen; try (eexists; reflexivity).
  now destruct Hlen.
Qed.

(** X17. The proposals are never read. [_get_proposals] asks the REST API
    for the leaf at the address of "hashblock.events.vote.proposals" and
    then, whether or not the leaf exists, raises [NameError] on the unbound
    [EventCandidates]; it ends in the error of the REST API otherwise. The
    listing therefore ends the same way for every filter, before its
    comprehension runs. *)
Theorem proposals_are_never_read :
  forall (env : Env)
         {msg_event : Message Event.t}
         {msg_candidates : Message EventCandidates.t}
         (tr : list effect),
    let address := eventsset._key_to_address proposals_key in
    let stopped (A : Type) (url : string) : result A * list effect :=
      (match get_leaf env url address with
       | Raise e => Raise e
       | Ok state_leaf =>
           Raise (NameError "name 'EventCandidates' is not defined")
       end,
       (tr ++ [GetLeaf url address])%list) in
    (forall rest_client : string,
       eventsset._get_proposals env rest_client tr = stopped _ rest_client)
    /\ (forall args : eventsset.ListArgs,
          eventsset._do_event_list_candidates env args tr
          = stopped _ (eventsset.list_url args)).
Proof.
  intros env msg_event msg_candidates tr. cbv zeta. split.
  - intros rest_client. rewrite get_proposals_run.
    destruct (get_leaf env rest_client _); reflexivity.
  - intros args. unfold eventsset._do_event_list_candidates, bind.
    rewrite get_proposals_run.
    destruct (get_leaf env (eventsset.list_url args) _); reflexivity.
Qed.

Section InitiateFacts.

Lemma split_zero (sep : ascii) (s : string) : split sep 0 s = [s].
Proof.
  induction s as [|c s IH]; [reflexivity|].
  cbn [split]. destruct (Ascii.eqb c sep); [reflexivity|].
  rewrite IH. reflexivity.
Qed.

Lemma split_without_sep (sep : ascii) (m : nat) (s : string) :
  Spec.free_of sep s -> split sep m s = [s].
Proof.
  unfold Spec.free_of. induction s as [|c s IH]; [reflexivity|].
  cbn [split list_ascii_of_string]. intros H.
  destruct (Ascii.eqb_spec c sep) as [-> | Hc];
    [exfalso; apply H; left; reflexivity|].
  rewrite IH; [reflexivity|]. intros Hin. apply H. right. exact Hin.
Qed.

Lemma split_once (sep : ascii) (k v : string) :
  Spec.free_of sep k ->
  split sep 1 (k ++ String sep v) = [k; v].
Proof.
  unfold Spec.free_of. induction k as [|c k IH]; intros H.
  - cbn [String.append split]. rewrite Ascii.eqb_refl, split_zero.
    reflexivity.
  - cbn [String.append split list_ascii_of_string] in *.
    destruct (Ascii.eqb_spec c sep) as [-> | Hc];
      [exfalso; apply H; left; reflexivity|].
    rewrite IH; [reflexivity|]. intros Hin. apply H. right. exact Hin.
Qed.

Lemma cut_at_first (sep : ascii) (s : string) :
  In sep (list_ascii_of_string s) ->
  exists k v, s = k ++ String sep v /\ Spec.free_of sep k.
Proof.
  unfold Spec.free_of. induction s as [|c s IH]; [intros []|].
  cbn [list_ascii_of_string]. intros H.
  destruct (Ascii.eqb_spec c sep) as [-> | Hc].
  - exists "", s. split; [reflexivity | intros []].
  - destruct H as [H | H]; [contradiction|].
    destruct (IH H) as (k & v & -> & Hk).
    exists (String c k), v. split; [reflexivity|].
    cbn [list_ascii_of_string]. intros [E | Hin]; [contradiction | auto].
Qed.

Lemma split_event (s : string) :
  if existsb (Ascii.eqb "=") (list_ascii_of_string s)
  then exists k v, split "=" 1 s = [k; v]
  else split "=" 1 s = [s].
Proof.
  destruct (existsb _ _) eqn:E.
  - apply existsb_exists in E as (c & Hin & Hc).
    apply Ascii.eqb_eq in Hc. subst c.
    destruct (cut_at_first "=" s Hin) as (k & v & -> & Hk).
    exists k, v. now apply split_once.
  - apply split_without_sep. intros Hin.
    assert (H : existsb (Ascii.eqb "=") (list_ascii_of_string s) = true).
    { apply existsb_exists. exists "="%char. split; [exact Hin|].
      apply Ascii.eqb_refl. }
    congruence.
Qed.
Context (env : Env).
Context {msg_proposal : Message EventProposal.t}
        {msg_payload : Message EventPayload.t}
        {msg_txn_header : Message TransactionHeader.t}
        {msg_batch_header : Message BatchHeader.t}
        {msg_batch_list : Message BatchList.t}.

(** The run of [_do_event_initiate] stops at its first event. *)
Lemma initiate_first_event_run (first : string) (others : list string)
      (key output url : option string) (tr : list effect) :
  eventsset._do_event_initiate env
    {| eventsset.event := first :: others;
       eventsset.initiate_key := key;
       eventsset.initiate_output := output;
       eventsset.initiate_url := url |} tr
  = match key_files env key with
    | Raise e => (Raise e, (tr ++ [ReadKeyFile key])%list)
    | Ok signer =>
        if existsb (Ascii.eqb "=") (list_ascii_of_string first)
        then (Raise (NameError "name 'EventProposal' is not defined"),
              (tr ++ [ReadKeyFile key; UtcNow])%list)
        else (Raise (ValueError
                       "not enough values to unpack (expected 2, got 1)"),
              (tr ++ [ReadKeyFile key])%list)
    end.
Proof.
  unfold eventsset._do_event_initiate, eventsset._read_signer.
  cbn [eventsset.event eventsset.initiate_key map comprehension].
  unfold bind at 1. unfold perform at 1.
  destruct (key_files env key) as [signer|e]; [|reflexivity].
  pose proof (split_event first) as Hs.
  destruct (existsb _ _).
  - destruct Hs as (k & v & ->).
    unfold bind at 1. unfold bind at 1.
    rewrite create_propose_txn_run, <- app_assoc. reflexivity.
  - rewrite Hs. reflexivity.
Qed.
End InitiateFacts.

(** X19. [_do_event_initiate] with at least one event never completes: once
    the key file is read, the first event is turned into a proposal, which
    ends in the [ValueError] of the unpacking when the event contains no '=',
    and otherwise, after the clock is read, in [NameError] on the unbound
    [EventProposal]. Nothing is signed, written or sent, whatever the
    target. *)
Theorem initiate_with_events_fails :
  forall (env : Env)
         {msg_proposal : Message EventProposal.t}
         {msg_payload : Message EventPayload.t}
         {msg_txn_header : Message TransactionHeader.t}
         {msg_batch_header : Message BatchHeader.t}
         {msg_batch_list : Message BatchList.t}
         (first : string) (others : list string)
         (key output url : option string) (tr : list effect),
    eventsset._do_event_initiate env
      {| eventsset.event := first :: others;
         eventsset.initiate_key := key;
         eventsset.initiate_output := output;
         eventsset.initiate_url := url |} tr
    = match key_files env key with
      | Raise e => (Raise e, (tr ++ [ReadKeyFile key])%list)
      | Ok signer =>
          if existsb (Ascii.eqb "=") (list_ascii_of_string first)
          then (Raise (NameError "name 'EventProposal' is not defined"),
                (tr ++ [ReadKeyFile key; UtcNow])%list)
          else (Raise (ValueError
                         "not enough values to unpack (expected 2, got 1)"),
                (tr ++ [ReadKeyFile key])%list)
      end.
Proof.
  intros env msg_proposal msg_payload msg_txn_header msg_batch_header
         msg_batch_list first others key output url tr.
  apply initiate_first_event_run.
Qed.

(** X20. A run of [_do_event_initiate] that completes carried no event: the
    key file was read, one batch without transactions was signed, and the
    batch list that holds it was written to the output file, or, without an
    output file, sent to the URL. *)
Theorem initiate_completes_only_without_events :
  forall (env : Env)
         {msg_proposal : Message EventProposal.t}
         {msg_payload : Message EventPayload.t}
         {msg_txn_header : Message TransactionHeader.t}
         {msg_batch_header : Message BatchHeader.t}
         {msg_batch_list : Message BatchList.t}
         (args : eventsset.InitiateArgs) (tr tr' : list effect),
    eventsset._do_event_initiate env args tr = (Ok tt, tr') ->
    eventsset.event args = []
    /\ exists (signer : Signer) (target : effect),
         key_files env (eventsset.initiate_key args) = Ok signer
         /\ let batch := Built.batch signer [] in
            let batch_list := {| BatchList.batches := [batch] |} in
            tr' = (tr ++ [ReadKeyFile (eventsset.initiate_key args);
                          Sign (Batch.header batch); target])%list
            /\ Batch.transactions batch = []
            /\ match eventsset.initiate_output args with
               | Some out =>
                   target = WriteFile out (SerializeToString batch_list)
               | None =>
                   exists url,
                     eventsset.initiate_url args = Some url
                     /\ target = SendBatches url batch_list
               end.
Proof.
  intros env msg_proposal msg_payload msg_txn_header msg_batch_header
         msg_batch_list [events key output url] tr tr' Hrun.
  cbn [eventsset.event eventsset.initiate_key eventsset.initiate_output
       eventsset.initiate_url].
  destruct events as [|first others].
  - split; [reflexivity|].
    revert Hrun.
    unfold eventsset._do_event_initiate, eventsset._read_signer.
    cbn [eventsset.event eventsset.initiate_key eventsset.initiate_output
         eventsset.initiate_url map comprehension].
    unfold bind at 1. unfold perform at 1.
    destruct (key_files env key) as [signer|e]; [|discriminate].
    unfold bind at 1. unfold bind at 1.
    unfold ret at 1. cbv iota beta.
    rewrite create_batch_run, <- app_assoc. cbn [app].
    destruct output as [out|].
    + destruct (write_error env out) as [e|]; [discriminate|].
      unfold perform. rewrite <- app_assoc. cbn [app].
      intros [= <-]. exists signer. eexists.
      split; [reflexivity|]. cbv zeta.
      split; [reflexivity|]. split; reflexivity.
    + destruct url as [u|]; [|discriminate].
      unfold perform. rewrite <- app_assoc. cbn [app].
      intros [= _ <-]. exists signer. eexists.
      split; [reflexivity|]. cbv zeta.
      split; [reflexivity|]. split; [reflexivity|].
      exists u. split; reflexivity.
  - rewrite initiate_first_event_run in Hrun.
    destruct (key_files env key); [|discriminate].
    destruct (existsb _ _); discriminate.
Qed.

(** On [Fixture.env], with no event and both targets given: the empty batch
    is written to the output file. *)
Lemma initiate_completes_only_without_events_witness :
  exists (signer : Signer) (target : effect),
    key_files Fixture.env None = Ok signer
    /\ target = WriteFile "events.batch" [].
Proof.
  destruct (@initiate_completes_only_without_events Fixture.env
              (Fixture.write_only _) (Fixture.write_only _)
              (Fixture.write_only _) (Fixture.write_only _)
              (Fixture.write_only _)
              {| eventsset.event := [];
                 eventsset.initiate_key := None;
                 eventsset.initiate_output := Some "events.batch";
                 eventsset.initiate_url := Some "http://rest-api:8008" |}
              [] [ReadKeyFile None; Sign []; WriteFile "events.batch" []])
    as (_ & signer & target & Hkey & _ & _ & Htarget).
  - reflexivity.
  - exists signer, target. split; [exact Hkey | exact Htarget].
Defined.

(** X21. The unit and asset families never share an item address: whatever
    the systems, keys and identifiers, an address returned by [unit_address]
    differs from every address returned by [asset_address], already in its
    first 12 characters. *)
Theorem unit_and_asset_addresses_are_disjoint :
  forall (system key system' key' : string) (ident ident' : option string),
    match Address.unit_address system key ident,
          Address.asset_address system' key' ident' with
    | Ok a, Ok b => slice_to 12 a <> slice_to 12 b /\ a <> b
    | _, _ => True
    end.
Proof.
  intros system key system' key' ident ident'.
  destruct (element_address_cases "unit" ["0.3.0"] system key ident)
    as [[_ [msg Ha]] | (id & a & _ & _ & Ha & Ea & _)];
    change (Address.element_address (Address.BaseAddress__init "unit" ["0.3.0"]))
      with Address.unit_address in Ha; rewrite Ha; [exact I|].
  destruct (element_address_cases "asset" ["0.3.0"] system' key' ident')
    as [[_ [msg Hb]] | (id' & b & _ & _ & Hb & Eb & _)];
    change (Address.element_address
              (Address.BaseAddress__init "asset" ["0.3.0"]))
      with Address.asset_address in Hb; rewrite Hb; [exact I|].
  assert (Hne : slice_to 12 a <> slice_to 12 b).
  { subst a b.
    rewrite !slice_to_append_left
      by (rewrite family_ns_hash_init, length_ns_family; lia).
    vm_compute. discriminate. }
  split; [exact Hne|]. intros E. apply Hne. now rewrite E.
Qed.

(** X22. The authorized keys that [_do_config_genesis] computes (l.201-204)
    always hold the signer's public key: they are the caller's keys, in
    their order, followed by the signer's key when it is not among them, and
    the signer's key alone when the caller gives no key or an empty list.
    The list is never empty, and the signer's key occurs in its comma-joined
    text. *)
Theorem genesis_authorized_keys_hold_signer_key :
  forall (authorized_key : option (list string)) (public_key : string),
    let keys := eventsset.genesis_authorized_keys authorized_key public_key in
    In public_key keys
    /\ 1 <= List.length keys
    /\ (exists before after : string,
          String.concat "," keys = before ++ public_key ++ after)
    /\ match authorized_key with
       | Some (k :: ks) =>
           if existsb (String.eqb public_key) (k :: ks)
           then keys = k :: ks
           else keys = (k :: ks ++ [public_key])%list
       | _ => keys = [public_key]
       end.
Proof.
  intros authorized_key public_key. cbv zeta.
  pose proof (signer_key_authorized authorized_key public_key) as Hin.
  split; [exact Hin|].
  split.
  { destruct (eventsset.genesis_authorized_keys authorized_key public_key);
      [destruct Hin | simpl; lia]. }
  split; [apply concat_contains; exact Hin|].
  unfold eventsset.genesis_authorized_keys.
  destruct authorized_key as [[|k ks]|].
  - cbn [existsb orb]. rewrite String.eqb_refl. reflexivity.
  - destruct (existsb _ (k :: ks)); reflexivity.
  - cbn [existsb orb]. rewrite String.eqb_refl. reflexivity.
Qed.
